(** * gps_metadata.py: GPS EXIF metadata of a directory of .jpg images, exported as CSV

    A shallow embedding of [src/gps_metadata.py] and the properties of its
    four functions [get_gps_info], [parse_gps_coordinate], [calculate_decimal]
    and [write_gps_to_csv].

    Conventions of the embedding.
    - A Python [str] is a [string]; a character stands for one code point
      (code points below 256), and [str] comparison is the lexicographic
      order on code points.
    - Python values that the program handles are the terms of [PyVal].
    - An operation that can raise returns in the error monad [Exc];
      [try ... except Exception as e] is a match on its result.
    - [print] appends a [LogEvent] to the console log; the text of an
      exception is kept as the exception value itself.
    - What belongs to the platform and not to the program (the EXIF decoder and
      its two tag tables, the float parser of [float()], the iteration order of
      a [set], the line format of [csv.writer]) is a field of a record that the
      functions take as an argument.
    - The directory can be listed and the output file can be opened and
      written: [os.listdir], [open] and [writerow] do not raise.  Exceptions
      are those that [except Exception] catches. *)

From Stdlib Require Import ZArith List String Ascii DecimalString Bool Lia.
From Stdlib Require Import Permutation Sorted.
From Stdlib Require Import PrimFloat SpecFloat FloatOps.
Import ListNotations.

Local Open Scope string_scope.
Local Open Scope list_scope.
Local Open Scope Z_scope.

(** ** Exceptions and the error monad *)

Inductive exn : Type :=
| DecoderError (msg : string)   (* raised inside [Image.open] / [_getexif] *)
| AttributeError
| TypeError
| ValueError
| OverflowError
| IndexError
| KeyError.

Definition Exc (A : Type) : Type := (exn + A)%type.

Definition ret {A : Type} (a : A) : Exc A := inr a.
Definition raise {A : Type} (e : exn) : Exc A := inl e.
Definition bind {A B : Type} (m : Exc A) (k : A -> Exc B) : Exc B :=
  match m with
  | inl e => inl e
  | inr a => k a
  end.

Notation "x <- m ;; k" := (bind m (fun x => k))
  (at level 61, m at next level, right associativity).

(** ** Python values *)

#[warnings="-register-all"]
Inductive PyVal : Type :=
| VNone
| VInt (n : Z)
| VFloat (f : float)
| VStr (s : string)
| VBytes (b : string)
| VRational (num den : Z)          (* PIL's IFDRational *)
| VTuple (items : list PyVal)
| VList (items : list PyVal)
| VDict (items : list (Z * PyVal)). (* a nested IFD: tag id -> value *)

(** Keys of a TagMap: [GPSTAGS.get(gps_tag_id, gps_tag_id)] is a tag name or
    the numeric id itself. *)
Inductive Key : Type :=
| KStr (s : string)
| KInt (n : Z).

Definition key_val (k : Key) : PyVal :=
  match k with
  | KStr s => VStr s
  | KInt n => VInt n
  end.

(** [a == b] on keys: an [int] never equals a [str]. *)
Definition key_eqb (a b : Key) : bool :=
  match a, b with
  | KStr x, KStr y => String.eqb x y
  | KInt x, KInt y => Z.eqb x y
  | _, _ => false
  end.

(** A [dict] keeps insertion order; [d[k] = v] overwrites in place. *)
Definition TagMap : Type := list (Key * PyVal).

Fixpoint dict_set (d : TagMap) (k : Key) (v : PyVal) : TagMap :=
  match d with
  | [] => [(k, v)]
  | (k', v') :: rest =>
      if key_eqb k' k then (k', v) :: rest else (k', v') :: dict_set rest k v
  end.

Fixpoint dict_get (d : TagMap) (k : Key) : option PyVal :=
  match d with
  | [] => None
  | (k', v) :: rest => if key_eqb k' k then Some v else dict_get rest k
  end.

(** [d.get(k)] and [d.get(k, default)]. *)
Definition dict_get_default (d : TagMap) (k : Key) (default : PyVal) : PyVal :=
  match dict_get d k with
  | Some v => v
  | None => default
  end.

Definition dict_keys (d : TagMap) : list Key := map fst d.

(** ** Console *)

Inductive LogEvent : Type :=
| ErrReadingGPSInfo (image_path : string) (e : exn)
| ErrParsingCoordinate (e : exn)
| ErrCalculatingDecimal (e : exn)
| MetadataSaved (output_csv : string)
| ErrWritingCSV (e : exn).

(** ** The platform *)

Record Runtime : Type := {
  (* [float(s)] on text: [None] when the text is not a float literal *)
  float_of_text : string -> option float;
  float_of_text_empty : float_of_text "" = None;
  (* the bytes [csv.writer(...).writerow(row)] appends to the file *)
  csv_writerow : list PyVal -> string
}.

(** The order in which a [set] with the given elements is iterated.  It
    depends on the hashes of the elements, which for [str] change from one
    run of the interpreter to the next. *)
Record SetOrder : Type := {
  set_iter : list Key -> list Key;
  set_iter_perm : forall l, Permutation (set_iter l) l
}.

Record ExifTags : Type := {
  TAGS : Z -> option string;      (* PIL.ExifTags.TAGS *)
  GPSTAGS : Z -> option string    (* PIL.ExifTags.GPSTAGS *)
}.

(** What [Image.open(path)._getexif()] does for a path: it raises, or returns
    [None], or returns the dictionary of top-level tags. *)
Definition Decoder : Type := string -> Exc (option (list (Z * PyVal))).

(** ** Built-ins used by the program *)

(** [bool(v)] *)
Definition py_bool (v : PyVal) : bool :=
  match v with
  | VNone => false
  | VInt n => negb (n =? 0)
  | VFloat f => negb (PrimFloat.eqb f 0%float)
  | VStr s => negb (String.eqb s "")
  | VBytes b => negb (String.eqb b "")
  | VRational n d => if d =? 0 then true else negb (n =? 0)
  | VTuple l => match l with [] => false | _ => true end
  | VList l => match l with [] => false | _ => true end
  | VDict l => match l with [] => false | _ => true end
  end.

(** [isinstance(v, (list, tuple))] *)
Definition is_list_or_tuple (v : PyVal) : bool :=
  match v with
  | VTuple _ | VList _ => true
  | _ => false
  end.

(** [len(v)] *)
Definition py_len (v : PyVal) : Exc Z :=
  match v with
  | VStr s => ret (Z.of_nat (String.length s))
  | VBytes b => ret (Z.of_nat (String.length b))
  | VTuple l => ret (Z.of_nat (List.length l))
  | VList l => ret (Z.of_nat (List.length l))
  | VDict l => ret (Z.of_nat (List.length l))
  | VNone | VInt _ | VFloat _ | VRational _ _ => raise TypeError
  end.

Fixpoint dict_lookup_id (l : list (Z * PyVal)) (i : Z) : option PyVal :=
  match l with
  | [] => None
  | (j, v) :: rest => if j =? i then Some v else dict_lookup_id rest i
  end.

(** [v[i]] for a literal index [i >= 0] *)
Definition py_getitem (v : PyVal) (i : nat) : Exc PyVal :=
  match v with
  | VTuple l | VList l =>
      match nth_error l i with
      | Some x => ret x
      | None => raise IndexError
      end
  | VStr s =>
      match String.get i s with
      | Some c => ret (VStr (String c EmptyString))
      | None => raise IndexError
      end
  | VBytes b =>
      match String.get i b with
      | Some c => ret (VInt (Z.of_N (N_of_ascii c)))
      | None => raise IndexError
      end
  | VDict l =>
      match dict_lookup_id l (Z.of_nat i) with
      | Some x => ret x
      | None => raise KeyError
      end
  | VNone | VInt _ | VFloat _ | VRational _ _ => raise TypeError
  end.

(** [v.items()] *)
Definition py_items (v : PyVal) : Exc (list (Z * PyVal)) :=
  match v with
  | VDict l => ret l
  | _ => raise AttributeError
  end.

(** An integer as an unrounded significand with exponent 0. *)
Definition Z2SF (n : Z) : spec_float :=
  match n with
  | Z0 => S754_zero false
  | Zpos p => S754_finite false p 0
  | Zneg p => S754_finite true p 0
  end.

Definition finite_or_overflow (x : spec_float) : Exc float :=
  match x with
  | S754_infinity _ => raise OverflowError
  | _ => ret (SF2Prim x)
  end.

(** [float(v)]: integers and rationals are rounded to the nearest binary64
    number (ties to even), [OverflowError] beyond the largest one. *)
Definition py_float (rt : Runtime) (v : PyVal) : Exc float :=
  match v with
  | VInt n => finite_or_overflow (binary_normalize prec emax n 0 false)
  | VFloat f => ret f
  | VStr s | VBytes s =>
      match float_of_text rt s with
      | Some f => ret f
      | None => raise ValueError
      end
  | VRational n d =>
      if d =? 0 then ret nan
      else finite_or_overflow
             (SFdiv prec emax (Z2SF (n * Z.sgn d)) (Z2SF (Z.abs d)))
  | VNone | VTuple _ | VList _ | VDict _ => raise TypeError
  end.

(** ** parse_gps_coordinate *)

Definition sentinel : PyVal * PyVal * PyVal := (VStr "", VStr "", VStr "").

(** The body of the [try] block: [None] when control falls out of the [if]. *)
Definition parse_gps_coordinate_body (coordinate : PyVal)
  : Exc (option (PyVal * PyVal * PyVal)) :=
  if py_bool coordinate then
    if is_list_or_tuple coordinate then
      n <- py_len coordinate ;;
      if n =? 3 then
        degrees <- py_getitem coordinate 0 ;;
        minutes <- py_getitem coordinate 1 ;;
        seconds <- py_getitem coordinate 2 ;;
        ret (Some (degrees, minutes, seconds))
      else ret None
    else ret None
  else ret None.

Definition parse_gps_coordinate (coordinate : PyVal)
  : (PyVal * PyVal * PyVal) * list LogEvent :=
  match parse_gps_coordinate_body coordinate with
  | inr (Some t) => (t, [])
  | inr None => (sentinel, [])
  | inl e => (sentinel, [ErrParsingCoordinate e])
  end.

(** ** calculate_decimal *)

Definition calculate_decimal_body (rt : Runtime) (degree minutes seconds : PyVal)
  : Exc float :=
  d <- py_float rt degree ;;
  m <- py_float rt minutes ;;
  s <- py_float rt seconds ;;
  ret (d + m / 60 + s / 3600)%float.

Definition calculate_decimal (rt : Runtime) (degree minutes seconds : PyVal)
  : PyVal * list LogEvent :=
  match calculate_decimal_body rt degree minutes seconds with
  | inr f => (VFloat f, [])
  | inl e => (VStr "", [ErrCalculatingDecimal e])
  end.

(** ** get_gps_info *)

(** [tag == 'GPSInfo'] for [tag = TAGS.get(tag_id, tag_id)] *)
Definition is_GPSInfo (tags : ExifTags) (tag_id : Z) : bool :=
  match TAGS tags tag_id with
  | Some name => String.eqb name "GPSInfo"
  | None => false
  end.

(** [GPSTAGS.get(gps_tag_id, gps_tag_id)] *)
Definition gps_tag_of (tags : ExifTags) (gps_tag_id : Z) : Key :=
  match GPSTAGS tags gps_tag_id with
  | Some name => KStr name
  | None => KInt gps_tag_id
  end.

(** The inner loop: [gps_info[gps_tag] = gps_value] for every item. *)
Definition copy_gps_items (tags : ExifTags) (items : list (Z * PyVal))
  (gps_info : TagMap) : TagMap :=
  fold_left (fun d it => dict_set d (gps_tag_of tags (fst it)) (snd it))
            items gps_info.

(** The outer loop, which stops at the first tag named GPSInfo. *)
Fixpoint scan_exif (tags : ExifTags) (exif_items : list (Z * PyVal))
  (gps_info : TagMap) : Exc TagMap :=
  match exif_items with
  | [] => ret gps_info
  | (tag_id, value) :: rest =>
      if is_GPSInfo tags tag_id then
        items <- py_items value ;;
        ret (copy_gps_items tags items gps_info)
      else scan_exif tags rest gps_info
  end.

Definition get_gps_info_body (tags : ExifTags) (getexif : Decoder)
  (image_path : string) : Exc TagMap :=
  exif_data <- getexif image_path ;;
  match exif_data with
  | None => ret []
  | Some [] => ret []
  | Some items => scan_exif tags items []
  end.

Definition get_gps_info (tags : ExifTags) (getexif : Decoder)
  (image_path : string) : TagMap * list LogEvent :=
  match get_gps_info_body tags getexif image_path with
  | inr gps_info => (gps_info, [])
  | inl e => ([], [ErrReadingGPSInfo image_path e])
  end.

(** ** Strings, sets and sorting as [write_gps_to_csv] uses them *)

(** [str.lower] on one code point below 256. *)
Definition lower_char (c : ascii) : ascii :=
  let n := N_of_ascii c in
  if ((65 <=? n) && (n <=? 90))%N
     || ((192 <=? n) && (n <=? 222) && negb (n =? 215))%N
  then ascii_of_N (n + 32) else c.

Fixpoint str_lower (s : string) : string :=
  match s with
  | EmptyString => EmptyString
  | String c rest => String (lower_char c) (str_lower rest)
  end.

(** [s.endswith(suffix)] *)
Definition endswith (s suffix : string) : bool :=
  let n := String.length s in
  let m := String.length suffix in
  (m <=? n)%nat && String.eqb (String.substring (n - m) m s) suffix.

Definition startswith (s pre : string) : bool := String.prefix pre s.

(** [os.path.join(a, b)] (POSIX) *)
Definition path_join (a b : string) : string :=
  if startswith b "/" then b
  else if String.eqb a "" || endswith a "/" then String.append a b
  else String.append a (String.append "/" b).

(** [k in l] *)
Definition key_in (k : Key) (l : list Key) : bool := existsb (key_eqb k) l.

(** A [set] is kept as the list of its elements, without repetition. *)
Definition set_add (s : list Key) (k : Key) : list Key :=
  if key_in k s then s else s ++ [k].

Definition set_update (s : list Key) (ks : list Key) : list Key :=
  fold_left set_add ks s.

Definition set_diff (s excluded : list Key) : list Key :=
  filter (fun k => negb (key_in k excluded)) s.

(** [a < b]: defined between two [str] and between two [int] only. *)
Definition key_lt (a b : Key) : Exc bool :=
  match a, b with
  | KStr x, KStr y => ret (String.ltb x y)
  | KInt x, KInt y => ret (x <? y)
  | _, _ => raise TypeError
  end.

(** [sorted] as a stable insertion sort on [<].  The list that [sorted]
    returns, and whether it raises, do not depend on the sorting algorithm:
    every comparison sort compares each element with some other one, so a
    [str] meets an [int] exactly when the list holds both. *)
Fixpoint insert_sorted (x : Key) (l : list Key) : Exc (list Key) :=
  match l with
  | [] => ret [x]
  | y :: rest =>
      b <- key_lt y x ;;
      if b then (r <- insert_sorted x rest ;; ret (y :: r))
      else ret (x :: y :: rest)
  end.

Fixpoint sorted (l : list Key) : Exc (list Key) :=
  match l with
  | [] => ret []
  | x :: rest => s <- sorted rest ;; insert_sorted x s
  end.

(** [l.remove(k)]: drops the first occurrence, [ValueError] if there is none. *)
Fixpoint list_remove (l : list Key) (k : Key) : Exc (list Key) :=
  match l with
  | [] => raise ValueError
  | y :: rest =>
      if key_eqb y k then ret rest
      else (r <- list_remove rest k ;; ret (y :: r))
  end.

(** ** write_gps_to_csv *)

Definition excluded_keys : list Key := [KStr "GPSAltitudeRef"; KStr "GPSVersionID"].

Definition lat_columns : list Key :=
  [KStr "GPSLatitudeDegree"; KStr "GPSLatitudeMinutes";
   KStr "GPSLatitudeSeconds"; KStr "GPSLatitudeDecimal"].

Definition long_columns : list Key :=
  [KStr "GPSLongDegree"; KStr "GPSLongMinutes";
   KStr "GPSLongSeconds"; KStr "GPSLongitudeDecimal"].

Record World : Type := {
  listdir : string -> list string;   (* [os.listdir], in its own order *)
  getexif : Decoder
}.

(** State of the discovery loop. *)
Record Discovery : Type := {
  all_gps_keys : list Key;
  gps_data_list : list (string * TagMap);
  discovery_log : list LogEvent
}.

Definition discover_step (tags : ExifTags) (w : World) (directory : string)
  (st : Discovery) (filename : string) : Discovery :=
  if endswith (str_lower filename) ".jpg" then
    let image_path := path_join directory filename in
    let '(gps_info, lg) := get_gps_info tags (getexif w) image_path in
    match gps_info with
    | [] =>
        {| all_gps_keys := all_gps_keys st;
           gps_data_list := gps_data_list st;
           discovery_log := discovery_log st ++ lg |}
    | _ =>
        {| all_gps_keys := set_update (all_gps_keys st) (dict_keys gps_info);
           gps_data_list := gps_data_list st ++ [(filename, gps_info)];
           discovery_log := discovery_log st ++ lg |}
    end
  else st.

Definition discover (tags : ExifTags) (w : World) (directory : string) : Discovery :=
  fold_left (discover_step tags w directory) (listdir w directory)
            {| all_gps_keys := []; gps_data_list := []; discovery_log := [] |}.

(** Lines 63-69: the column names after [Image Name]. *)
Definition expand (name : Key) (columns : list Key) (l : list Key) : Exc (list Key) :=
  if key_in name l then
    l' <- list_remove l name ;;
    ret (l' ++ columns)
  else ret l.

Definition derive_columns (so : SetOrder) (keys : list Key) : Exc (list Key) :=
  l0 <- sorted (set_iter so (set_diff keys excluded_keys)) ;;
  l1 <- expand (KStr "GPSLatitude") lat_columns l0 ;;
  expand (KStr "GPSLongitude") long_columns l1.

(** State of the loop over the columns of one row. *)
Record RowState : Type := {
  row : list PyVal;
  gps_lat_degree : PyVal;
  gps_lat_minutes : PyVal;
  gps_lat_seconds : PyVal;
  gps_long_degree : PyVal;
  gps_long_minutes : PyVal;
  gps_long_seconds : PyVal;
  row_log : list LogEvent
}.

Definition row_init (filename : string) : RowState :=
  {| row := [VStr filename];
     gps_lat_degree := VStr ""; gps_lat_minutes := VStr ""; gps_lat_seconds := VStr "";
     gps_long_degree := VStr ""; gps_long_minutes := VStr ""; gps_long_seconds := VStr "";
     row_log := [] |}.

Definition append_cell (st : RowState) (v : PyVal) (lg : list LogEvent) : RowState :=
  {| row := row st ++ [v];
     gps_lat_degree := gps_lat_degree st; gps_lat_minutes := gps_lat_minutes st;
     gps_lat_seconds := gps_lat_seconds st;
     gps_long_degree := gps_long_degree st; gps_long_minutes := gps_long_minutes st;
     gps_long_seconds := gps_long_seconds st;
     row_log := row_log st ++ lg |}.

Definition append_log (st : RowState) (lg : list LogEvent) : RowState :=
  {| row := row st;
     gps_lat_degree := gps_lat_degree st; gps_lat_minutes := gps_lat_minutes st;
     gps_lat_seconds := gps_lat_seconds st;
     gps_long_degree := gps_long_degree st; gps_long_minutes := gps_long_minutes st;
     gps_long_seconds := gps_long_seconds st;
     row_log := row_log st ++ lg |}.

Definition set_lat_degree (st : RowState) (v : PyVal) : RowState :=
  {| row := row st; gps_lat_degree := v; gps_lat_minutes := gps_lat_minutes st;
     gps_lat_seconds := gps_lat_seconds st;
     gps_long_degree := gps_long_degree st; gps_long_minutes := gps_long_minutes st;
     gps_long_seconds := gps_long_seconds st; row_log := row_log st |}.

Definition set_lat_minutes (st : RowState) (v : PyVal) : RowState :=
  {| row := row st; gps_lat_degree := gps_lat_degree st; gps_lat_minutes := v;
     gps_lat_seconds := gps_lat_seconds st;
     gps_long_degree := gps_long_degree st; gps_long_minutes := gps_long_minutes st;
     gps_long_seconds := gps_long_seconds st; row_log := row_log st |}.

Definition set_lat_seconds (st : RowState) (v : PyVal) : RowState :=
  {| row := row st; gps_lat_degree := gps_lat_degree st;
     gps_lat_minutes := gps_lat_minutes st; gps_lat_seconds := v;
     gps_long_degree := gps_long_degree st; gps_long_minutes := gps_long_minutes st;
     gps_long_seconds := gps_long_seconds st; row_log := row_log st |}.

Definition set_long_degree (st : RowState) (v : PyVal) : RowState :=
  {| row := row st; gps_lat_degree := gps_lat_degree st;
     gps_lat_minutes := gps_lat_minutes st; gps_lat_seconds := gps_lat_seconds st;
     gps_long_degree := v; gps_long_minutes := gps_long_minutes st;
     gps_long_seconds := gps_long_seconds st; row_log := row_log st |}.

Definition set_long_minutes (st : RowState) (v : PyVal) : RowState :=
  {| row := row st; gps_lat_degree := gps_lat_degree st;
     gps_lat_minutes := gps_lat_minutes st; gps_lat_seconds := gps_lat_seconds st;
     gps_long_degree := gps_long_degree st; gps_long_minutes := v;
     gps_long_seconds := gps_long_seconds st; row_log := row_log st |}.

Definition set_long_seconds (st : RowState) (v : PyVal) : RowState :=
  {| row := row st; gps_lat_degree := gps_lat_degree st;
     gps_lat_minutes := gps_lat_minutes st; gps_lat_seconds := gps_lat_seconds st;
     gps_long_degree := gps_long_degree st; gps_long_minutes := gps_long_minutes st;
     gps_long_seconds := v; row_log := row_log st |}.

(** Lines 84-113: the body of [for key in all_gps_keys]. *)
Definition row_step (rt : Runtime) (gps_info : TagMap) (st : RowState) (key : Key)
  : RowState :=
  if key_in key [KStr "GPSLatitudeDegree"; KStr "GPSLatitudeMinutes";
                 KStr "GPSLatitudeSeconds"] then
    let '((degrees, minutes, seconds), lg) :=
      parse_gps_coordinate (dict_get_default gps_info (KStr "GPSLatitude") VNone) in
    if key_eqb key (KStr "GPSLatitudeDegree") then
      append_cell (set_lat_degree st degrees) degrees lg
    else if key_eqb key (KStr "GPSLatitudeMinutes") then
      append_cell (set_lat_minutes st minutes) minutes lg
    else if key_eqb key (KStr "GPSLatitudeSeconds") then
      append_cell (set_lat_seconds st seconds) seconds lg
    else append_log st lg
  else if key_eqb key (KStr "GPSLatitudeDecimal") then
    let '(decimal_value, lg) :=
      calculate_decimal rt (gps_lat_degree st) (gps_lat_minutes st) (gps_lat_seconds st) in
    append_cell st decimal_value lg
  else if key_in key [KStr "GPSLongDegree"; KStr "GPSLongMinutes";
                      KStr "GPSLongSeconds"] then
    let '((degrees, minutes, seconds), lg) :=
      parse_gps_coordinate (dict_get_default gps_info (KStr "GPSLongitude") VNone) in
    if key_eqb key (KStr "GPSLongDegree") then
      append_cell (set_long_degree st degrees) degrees lg
    else if key_eqb key (KStr "GPSLongMinutes") then
      append_cell (set_long_minutes st minutes) minutes lg
    else if key_eqb key (KStr "GPSLongSeconds") then
      append_cell (set_long_seconds st seconds) seconds lg
    else append_log st lg
  else if key_eqb key (KStr "GPSLongitudeDecimal") then
    let '(decimal_value, lg) :=
      calculate_decimal rt (gps_long_degree st) (gps_long_minutes st) (gps_long_seconds st) in
    append_cell st decimal_value lg
  else
    append_cell st (dict_get_default gps_info key (VStr "")) [].

Definition build_row (rt : Runtime) (columns : list Key) (entry : string * TagMap)
  : RowState :=
  fold_left (row_step rt (snd entry)) columns (row_init (fst entry)).

(** What a run leaves behind: the rows handed to the CSV writer ([None] when
    the output file was never opened) and the console. *)
Record Outcome : Type := {
  csv : option (list (list PyVal));
  console : list LogEvent
}.

Definition write_gps_to_csv (rt : Runtime) (so : SetOrder) (tags : ExifTags)
  (w : World) (directory output_csv : string) : Outcome :=
  let d := discover tags w directory in
  match derive_columns so (all_gps_keys d) with
  | inl e =>
      {| csv := None; console := discovery_log d ++ [ErrWritingCSV e] |}
  | inr columns =>
      let headers := VStr "Image Name" :: map key_val columns in
      let states := map (build_row rt columns) (gps_data_list d) in
      {| csv := Some (headers :: map row states);
         console := discovery_log d ++ List.concat (map row_log states)
                    ++ [MetadataSaved output_csv] |}
  end.

(** The content of the output file after a run that found it with content
    [before] ([None]: no such file).  The file is opened with mode ['w'] only
    after the columns are derived. *)
Definition csv_text (rt : Runtime) (rows : list (list PyVal)) : string :=
  String.concat "" (map (csv_writerow rt) rows).

Definition file_after (rt : Runtime) (o : Outcome) (before : option string)
  : option string :=
  match csv o with
  | Some rows => Some (csv_text rt rows)
  | None => before
  end.

(** ** Notions used in the statements, and example directories *)

(** [a < b] evaluates to [True]. *)
Definition key_ltP (a b : Key) : Prop := key_lt a b = inr true.

(** [b < a] evaluates to [False]: [a] may stand before [b]. *)
Definition key_leP (a b : Key) : Prop := key_lt b a = inr false.

Definition same_kind (a b : Key) : bool :=
  match a, b with
  | KStr _, KStr _ | KInt _, KInt _ => true
  | _, _ => false
  end.

(** All keys are [str], or all are [int]. *)
Definition homogeneous (l : list Key) : Prop :=
  forall a b, In a l -> In b l -> same_kind a b = true.

Definition without (k : Key) (l : list Key) : list Key :=
  filter (fun y => negb (key_eqb y k)) l.

(** The sorted tag columns: the sorted keys without the two coordinate tags. *)
Definition tag_columns (l0 : list Key) : list Key :=
  without (KStr "GPSLongitude") (without (KStr "GPSLatitude") l0).

Definition group_if (b : bool) (columns : list Key) : list Key :=
  if b then columns else [].

(** The entry that one directory entry contributes to [gps_data_list]. *)
Definition recorded_entry (tags : ExifTags) (w : World) (directory filename : string)
  : list (string * TagMap) :=
  if endswith (str_lower filename) ".jpg" then
    match fst (get_gps_info tags (getexif w) (path_join directory filename)) with
    | [] => []
    | gps_info => [(filename, gps_info)]
    end
  else [].

Definition recorded (tags : ExifTags) (w : World) (directory : string)
  (names : list string) : list (string * TagMap) :=
  flat_map (recorded_entry tags w directory) names.

Definition keys_of (data : list (string * TagMap)) : list Key :=
  flat_map (fun entry => dict_keys (snd entry)) data.

(** A key is observed when some [.jpg] entry of the directory has it in its
    extracted TagMap. *)
Definition observed (tags : ExifTags) (w : World) (directory : string) (k : Key) : Prop :=
  exists filename,
    In filename (listdir w directory) /\
    endswith (str_lower filename) ".jpg" = true /\
    In k (dict_keys (fst (get_gps_info tags (getexif w) (path_join directory filename)))).

(** The elements of a [list] or [tuple]; [None] for every other value. *)
Definition seq_items (v : PyVal) : option (list PyVal) :=
  match v with
  | VTuple l | VList l => Some l
  | _ => None
  end.

(** The row as the specification describes it: each coordinate is split once
    per row, the three component cells and the decimal cell of a coordinate
    all come from that one split, every other column is
    [gps_info.get(column, '')]. *)
Definition memo_cell (rt : Runtime) (gps_info : TagMap)
  (lat long : PyVal * PyVal * PyVal) (key : Key) : PyVal :=
  let '(lat_d, lat_m, lat_s) := lat in
  let '(long_d, long_m, long_s) := long in
  if key_eqb key (KStr "GPSLatitudeDegree") then lat_d
  else if key_eqb key (KStr "GPSLatitudeMinutes") then lat_m
  else if key_eqb key (KStr "GPSLatitudeSeconds") then lat_s
  else if key_eqb key (KStr "GPSLatitudeDecimal") then
    fst (calculate_decimal rt lat_d lat_m lat_s)
  else if key_eqb key (KStr "GPSLongDegree") then long_d
  else if key_eqb key (KStr "GPSLongMinutes") then long_m
  else if key_eqb key (KStr "GPSLongSeconds") then long_s
  else if key_eqb key (KStr "GPSLongitudeDecimal") then
    fst (calculate_decimal rt long_d long_m long_s)
  else dict_get_default gps_info key (VStr "").

(** The memoized row: both coordinates are split before the columns are
    visited. *)
Definition build_row_memo (rt : Runtime) (columns : list Key)
  (entry : string * TagMap) : list PyVal :=
  let gps_info := snd entry in
  let lat := fst (parse_gps_coordinate
                    (dict_get_default gps_info (KStr "GPSLatitude") VNone)) in
  let long := fst (parse_gps_coordinate
                     (dict_get_default gps_info (KStr "GPSLongitude") VNone)) in
  VStr (fst entry) :: map (memo_cell rt gps_info lat long) columns.

(** The split of the row's latitude and of its longitude. *)
Definition lat_of (gps_info : TagMap) : PyVal * PyVal * PyVal :=
  fst (parse_gps_coordinate (dict_get_default gps_info (KStr "GPSLatitude") VNone)).

Definition long_of (gps_info : TagMap) : PyVal * PyVal * PyVal :=
  fst (parse_gps_coordinate (dict_get_default gps_info (KStr "GPSLongitude") VNone)).

Definition derived_columns : list Key := lat_columns ++ long_columns.

(** A column that is not one of the eight derived ones. *)
Definition plain (key : Key) : Prop := ~ In key derived_columns.

(** The latitude variables of the loop while no split has produced a value. *)
Definition lat_unset (st : RowState) : Prop :=
  gps_lat_degree st = VStr "" /\ gps_lat_minutes st = VStr ""
  /\ gps_lat_seconds st = VStr "".

(** The two tables of Pillow's [ExifTags] that the program consults (of
    [TAGS], the entries used in the examples). *)
Definition pillow_gps_names : list string :=
  ["GPSVersionID"; "GPSLatitudeRef"; "GPSLatitude"; "GPSLongitudeRef";
   "GPSLongitude"; "GPSAltitudeRef"; "GPSAltitude"; "GPSTimeStamp";
   "GPSSatellites"; "GPSStatus"; "GPSMeasureMode"; "GPSDOP"; "GPSSpeedRef";
   "GPSSpeed"; "GPSTrackRef"; "GPSTrack"; "GPSImgDirectionRef";
   "GPSImgDirection"; "GPSMapDatum"; "GPSDestLatitudeRef"; "GPSDestLatitude";
   "GPSDestLongitudeRef"; "GPSDestLongitude"; "GPSDestBearingRef";
   "GPSDestBearing"; "GPSDestDistanceRef"; "GPSDestDistance";
   "GPSProcessingMethod"; "GPSAreaInformation"; "GPSDateStamp";
   "GPSDifferential"; "GPSHPositioningError"].

Definition pillow_tags : ExifTags :=
  {| TAGS := fun n =>
       if n =? 34853 then Some "GPSInfo"
       else if n =? 271 then Some "Make"
       else if n =? 272 then Some "Model"
       else None;
     GPSTAGS := fun n =>
       if n <? 0 then None else nth_error pillow_gps_names (Z.to_nat n) |}.

(** A runtime for the examples: none of them converts a text other than ['']
    to a float or looks at the bytes of the file. *)
Definition example_runtime : Runtime :=
  {| float_of_text := fun _ => None;
     float_of_text_empty := eq_refl;
     csv_writerow := fun _ => "" |}.

Definition insertion_order : SetOrder :=
  {| set_iter := fun l => l; set_iter_perm := fun l => Permutation_refl l |}.

Definition reverse_order : SetOrder :=
  {| set_iter := fun l => rev l;
     set_iter_perm := fun l => Permutation_sym (Permutation_rev l) |}.

Definition world_of (names : list string)
  (files : list (string * Exc (option (list (Z * PyVal))))) : World :=
  {| listdir := fun _ => names;
     getexif := fun path =>
       match find (fun f => String.eqb (fst f) path) files with
       | Some f => snd f
       | None => raise (DecoderError "cannot identify image file")
       end |}.

(** [a.jpg] with a full GPS block, [b.JPG] without EXIF data, a text file,
    [c.jpg] that the decoder rejects, [d.jpg] with a two-element latitude. *)
Definition photos : World :=
  world_of ["a.jpg"; "b.JPG"; "notes.txt"; "c.jpg"; "d.jpg"]
    [("photos/a.jpg",
      ret (Some [(271, VStr "Canon");
                 (34853, VDict [(0, VBytes "2200"); (1, VStr "N");
                                (2, VTuple [VInt 10; VInt 30; VInt 0]);
                                (3, VStr "E");
                                (4, VTuple [VInt 20; VInt 15; VInt 0]);
                                (5, VBytes "0"); (6, VInt 5)])]));
     ("photos/b.JPG", ret None);
     ("photos/c.jpg", raise (DecoderError "image file is truncated"));
     ("photos/d.jpg",
      ret (Some [(34853, VDict [(3, VStr "W");
                                (2, VTuple [VInt 10; VInt 30])])]))].

(** One image whose GPS block has only sub-tags that the table does not
    name. *)
Definition unnamed_tags_only : World :=
  world_of ["a.jpg"]
    [("photos/a.jpg",
      ret (Some [(34853, VDict [(100, VStr "x"); (32, VStr "y")])]))].

(** One image whose GPS block has a latitude and one sub-tag that the table
    does not name. *)
Definition with_unnamed_tag : World :=
  world_of ["a.jpg"]
    [("photos/a.jpg",
      ret (Some [(34853, VDict [(2, VTuple [VInt 10; VInt 30; VInt 0]);
                                (99, VStr "x")])]))].

Definition csv_from (rt : Runtime) (so : SetOrder) (data : list (string * TagMap))
  : option (list (list PyVal)) :=
  match derive_columns so (set_update [] (keys_of data)) with
  | inl _ => None
  | inr columns =>
      Some ((VStr "Image Name" :: map key_val columns)
            :: map (fun entry => row (build_row rt columns entry)) data)
  end.

Definition with_listing (w : World) (names : list string) : World :=
  {| listdir := fun _ => names; getexif := getexif w |}.

(** What the CSV shows for a column: the name, or the digits of the id. *)
Definition key_text (k : Key) : string :=
  match k with
  | KStr s => s
  | KInt n => NilZero.string_of_int (Z.to_int n)
  end.

(** A directory entry that contributes a row: a [.jpg] name whose extracted
    TagMap is not empty. *)
Definition qualifies (tags : ExifTags) (w : World) (directory filename : string)
  : bool :=
  endswith (str_lower filename) ".jpg"
  && match fst (get_gps_info tags (getexif w) (path_join directory filename)) with
     | [] => false
     | _ => true
     end.

(** The export with the memoized rows of the specification. *)
Definition csv_memo (rt : Runtime) (so : SetOrder) (tags : ExifTags) (w : World)
  (directory : string) : option (list (list PyVal)) :=
  let d := discover tags w directory in
  match derive_columns so (all_gps_keys d) with
  | inl _ => None
  | inr columns =>
      Some ((VStr "Image Name" :: map key_val columns)
            :: map (build_row_memo rt columns) (gps_data_list d))
  end.

(** ** Notions for the further properties, and the command-line block *)




(** A white-space character for [str.strip]. *)
Definition is_space (c : ascii) : bool :=
  let n := N_of_ascii c in
  (((9 <=? n) && (n <=? 13)) || ((28 <=? n) && (n <=? 32))
   || (n =? 133) || (n =? 160))%N.

Fixpoint lstrip (s : string) : string :=
  match s with
  | EmptyString => EmptyString
  | String c rest => if is_space c then lstrip rest else s
  end.

Fixpoint rstrip (s : string) : string :=
  match s with
  | EmptyString => EmptyString
  | String c rest =>
      match rstrip rest with
      | EmptyString => if is_space c then EmptyString else String c EmptyString
      | kept => String c kept
      end
  end.

(** [s.strip()] *)
Definition py_strip (s : string) : string := rstrip (lstrip s).

Fixpoint all_space (s : string) : bool :=
  match s with
  | EmptyString => true
  | String c rest => is_space c && all_space rest
  end.

(** What the command-line block writes on the terminal. *)
Inductive MainEvent : Type :=
| Prompt (text : string)
| NoSuchDirectory (directory : string)
| Printed (ev : LogEvent).

Record MainOutcome : Type := {
  main_csv : option (list (list PyVal));
  main_console : list MainEvent
}.

(** Lines 120-127: the two answers of the user are stripped; the export runs
    only when the first one is an existing directory. *)
Definition main (rt : Runtime) (so : SetOrder) (tags : ExifTags) (w : World)
  (isdir : string -> bool) (answer1 answer2 : string) : MainOutcome :=
  let directory := py_strip answer1 in
  let output_csv := py_strip answer2 in
  let prompts :=
    [Prompt "Enter the directory containing .jpg images: ";
     Prompt "Enter the output CSV file name (e.g., gps_metadata.csv): "] in
  if negb (isdir directory) then
    {| main_csv := None;
       main_console := prompts ++ [NoSuchDirectory directory] |}
  else
    let o := write_gps_to_csv rt so tags w directory output_csv in
    {| main_csv := csv o;
       main_console := prompts ++ map Printed (console o) |}.

Definition is_decimal_column (key : Key) : bool :=
  key_eqb key (KStr "GPSLatitudeDecimal") || key_eqb key (KStr "GPSLongitudeDecimal").

Definition lat_components : list Key :=
  [KStr "GPSLatitudeDegree"; KStr "GPSLatitudeMinutes"; KStr "GPSLatitudeSeconds"].

(** * Properties *)

(** ** Keys: equality and order *)

Lemma key_eqb_eq (a b : Key) : key_eqb a b = true <-> a = b.
Proof.
  destruct a as [x|x], b as [y|y]; simpl; split; intro H;
    try discriminate; try congruence.
  - apply String.eqb_eq in H. now subst.
  - injection H as ->. apply String.eqb_refl.
  - apply Z.eqb_eq in H. now subst.
  - injection H as ->. apply Z.eqb_refl.
Qed.

Lemma key_eqb_refl (a : Key) : key_eqb a a = true.
Proof. now apply key_eqb_eq. Qed.

Lemma key_eqb_neq (a b : Key) : key_eqb a b = false <-> a <> b.
Proof.
  split.
  - intros H E. apply key_eqb_eq in E. congruence.
  - intro H. destruct (key_eqb a b) eqn:E; [|reflexivity].
    apply key_eqb_eq in E. contradiction.
Qed.

Lemma key_eqb_sym (a b : Key) : key_eqb a b = key_eqb b a.
Proof.
  destruct (key_eqb b a) eqn:E.
  - apply key_eqb_eq in E. subst. apply key_eqb_refl.
  - apply key_eqb_neq. apply key_eqb_neq in E. congruence.
Qed.

Lemma key_in_In (k : Key) (l : list Key) : key_in k l = true <-> In k l.
Proof.
  unfold key_in. rewrite existsb_exists. split.
  - intros [x [Hx E]]. apply key_eqb_eq in E. now subst.
  - intro H. exists k. split; [assumption | apply key_eqb_refl].
Qed.

Lemma key_in_not_In (k : Key) (l : list Key) : key_in k l = false <-> ~ In k l.
Proof.
  rewrite <- key_in_In. destruct (key_in k l); split; congruence.
Qed.

Lemma ascii_compare_refl (c : ascii) : Ascii.compare c c = Eq.
Proof. unfold Ascii.compare. apply N.compare_refl. Qed.

Lemma ascii_compare_lt_trans (a b c : ascii) :
  Ascii.compare a b = Lt -> Ascii.compare b c = Lt -> Ascii.compare a c = Lt.
Proof.
  unfold Ascii.compare. rewrite !N.compare_lt_iff. apply N.lt_trans.
Qed.

Lemma string_compare_refl (s : string) : String.compare s s = Eq.
Proof.
  induction s as [|c s IH]; simpl; [reflexivity|].
  now rewrite ascii_compare_refl.
Qed.

Lemma string_compare_lt_trans (a b c : string) :
  String.compare a b = Lt -> String.compare b c = Lt -> String.compare a c = Lt.
Proof.
  revert b c. induction a as [|x a IH]; intros [|y b] [|z c]; simpl;
    try congruence.
  destruct (Ascii.compare x y) eqn:Exy; try discriminate;
    destruct (Ascii.compare y z) eqn:Eyz; try discriminate; intros H1 H2.
  - apply Ascii.compare_eq_iff in Exy, Eyz. subst.
    rewrite ascii_compare_refl. eauto.
  - apply Ascii.compare_eq_iff in Exy. subst. now rewrite Eyz.
  - apply Ascii.compare_eq_iff in Eyz. subst. now rewrite Exy.
  - now rewrite (ascii_compare_lt_trans _ _ _ Exy Eyz).
Qed.

Lemma key_lt_le (a b : Key) : key_ltP a b -> key_leP a b.
Proof.
  unfold key_ltP, key_leP.
  destruct a as [x|x], b as [y|y]; simpl; try discriminate; intro H;
    injection H as H; unfold ret; f_equal.
  - unfold String.ltb in *. rewrite String.compare_antisym.
    destruct (String.compare x y); simpl; congruence.
  - apply Z.ltb_lt in H. apply Z.ltb_ge. lia.
Qed.

Lemma key_le_trans (a b c : Key) : key_leP a b -> key_leP b c -> key_leP a c.
Proof.
  unfold key_leP.
  destruct a as [x|x], b as [y|y], c as [z|z]; simpl; try discriminate;
    intros H1 H2; injection H1 as H1; injection H2 as H2; unfold ret; f_equal.
  - unfold String.ltb in *.
    destruct (String.compare z x) eqn:Ezx; try reflexivity.
    destruct (String.compare y x) eqn:Eyx; try discriminate.
    + apply String.compare_eq_iff in Eyx. subst. now rewrite Ezx in H2.
    + destruct (String.compare z y) eqn:Ezy; try discriminate.
      * apply String.compare_eq_iff in Ezy. subst. congruence.
      * rewrite String.compare_antisym in Eyx, Ezy.
        destruct (String.compare x y) eqn:Exy; try discriminate.
        destruct (String.compare y z) eqn:Eyz; try discriminate.
        pose proof (string_compare_lt_trans _ _ _ Exy Eyz) as T.
        rewrite String.compare_antisym, T in Ezx. discriminate.
  - apply Z.ltb_ge in H1, H2. apply Z.ltb_ge. lia.
Qed.

Lemma key_le_antisym (a b : Key) : key_leP a b -> key_leP b a -> a = b.
Proof.
  unfold key_leP.
  destruct a as [x|x], b as [y|y]; simpl; try discriminate;
    intros H1 H2; injection H1 as H1; injection H2 as H2; f_equal.
  - unfold String.ltb in *. rewrite String.compare_antisym in H1.
    destruct (String.compare x y) eqn:E; try discriminate.
    now apply String.compare_eq_iff.
  - apply Z.ltb_ge in H1, H2. lia.
Qed.

Lemma key_le_neq_lt (a b : Key) : key_leP a b -> a <> b -> key_ltP a b.
Proof.
  unfold key_leP, key_ltP.
  destruct a as [x|x], b as [y|y]; simpl; try discriminate;
    intros H1 N; injection H1 as H1; unfold ret; f_equal.
  - unfold String.ltb in *. rewrite String.compare_antisym in H1.
    destruct (String.compare x y) eqn:E; try discriminate; try reflexivity.
    apply String.compare_eq_iff in E. congruence.
  - apply Z.ltb_ge in H1. apply Z.ltb_lt.
    assert (x <> y) by congruence. lia.
Qed.

Lemma key_lt_irrefl (a : Key) : ~ key_ltP a a.
Proof.
  unfold key_ltP. destruct a as [x|x]; simpl; intro H; injection H as H.
  - unfold String.ltb in H. now rewrite string_compare_refl in H.
  - apply Z.ltb_lt in H. lia.
Qed.

(** ** [sorted]: when it returns, what it returns *)

Lemma same_kind_sym (a b : Key) : same_kind a b = same_kind b a.
Proof. now destruct a, b. Qed.

Lemma same_kind_trans (a b c : Key) :
  same_kind a b = true -> same_kind b c = true -> same_kind a c = true.
Proof. destruct a, b, c; simpl; congruence. Qed.

Lemma key_lt_defined (a b : Key) :
  same_kind a b = true -> exists r, key_lt a b = inr r.
Proof. destruct a, b; simpl; try discriminate; eauto. Qed.

Lemma key_lt_same_kind (a b : Key) (r : bool) :
  key_lt a b = inr r -> same_kind a b = true.
Proof. destruct a, b; simpl; try discriminate; reflexivity. Qed.

Lemma key_lt_error (a b : Key) (e : exn) : key_lt a b = inl e -> e = TypeError.
Proof. destruct a, b; simpl; unfold ret, raise; congruence. Qed.

Lemma homogeneous_perm (l1 l2 : list Key) :
  Permutation l1 l2 -> homogeneous l1 -> homogeneous l2.
Proof.
  intros P H a b Ha Hb.
  apply H; (eapply Permutation_in; [apply Permutation_sym; exact P | assumption]).
Qed.

Lemma homogeneous_tail (x : Key) (l : list Key) : homogeneous (x :: l) -> homogeneous l.
Proof. intros H a b Ha Hb. apply H; now right. Qed.

Lemma insert_sorted_perm (x : Key) (l r : list Key) :
  insert_sorted x l = inr r -> Permutation r (x :: l).
Proof.
  revert r. induction l as [|y l IH]; simpl; intros r H.
  - injection H as <-. apply Permutation_refl.
  - destruct (key_lt y x) as [e|[|]]; simpl in H; try discriminate.
    + destruct (insert_sorted x l) as [e|r']; simpl in H; try discriminate.
      injection H as <-. specialize (IH r' eq_refl).
      apply Permutation_trans with (y :: x :: l);
        [now apply perm_skip | apply perm_swap].
    + injection H as <-. apply Permutation_refl.
Qed.

Lemma insert_sorted_sorted (x : Key) (l r : list Key) :
  StronglySorted key_leP l -> insert_sorted x l = inr r -> StronglySorted key_leP r.
Proof.
  revert r. induction l as [|y l IH]; simpl; intros r S H.
  - injection H as <-. repeat constructor.
  - apply StronglySorted_inv in S. destruct S as [S F].
    destruct (key_lt y x) as [e|[|]] eqn:E; simpl in H; try discriminate.
    + destruct (insert_sorted x l) as [e|r'] eqn:I; simpl in H; try discriminate.
      injection H as <-. constructor; [now apply IH|].
      apply insert_sorted_perm in I.
      eapply Permutation_Forall; [apply Permutation_sym; exact I|].
      constructor; [now apply key_lt_le | assumption].
    + injection H as <-. constructor; [now constructor|].
      constructor; [exact E|].
      eapply Forall_impl; [|exact F]. intros z Hz.
      eapply key_le_trans; [exact E | exact Hz].
Qed.

Lemma sorted_perm (l r : list Key) : sorted l = inr r -> Permutation r l.
Proof.
  revert r. induction l as [|x l IH]; simpl; intros r H.
  - injection H as <-. constructor.
  - destruct (sorted l) as [e|s]; simpl in H; try discriminate.
    apply insert_sorted_perm in H.
    eapply Permutation_trans; [exact H|]. apply perm_skip. now apply IH.
Qed.

Lemma sorted_sorted (l r : list Key) : sorted l = inr r -> StronglySorted key_leP r.
Proof.
  revert r. induction l as [|x l IH]; simpl; intros r H.
  - injection H as <-. constructor.
  - destruct (sorted l) as [e|s]; simpl in H; try discriminate.
    eapply insert_sorted_sorted; [|exact H]. now apply IH.
Qed.

Lemma insert_sorted_defined (x : Key) (l : list Key) :
  (forall y, In y l -> same_kind y x = true) -> exists r, insert_sorted x l = inr r.
Proof.
  induction l as [|y l IH]; simpl; intro K.
  - eexists. reflexivity.
  - destruct (key_lt_defined y x) as [b E]; [apply K; now left|].
    rewrite E. simpl. destruct b; [|eexists; reflexivity].
    destruct IH as [r' I']; [intros z Hz; apply K; now right|].
    rewrite I'. simpl. eexists. reflexivity.
Qed.

Lemma sorted_defined (l : list Key) : homogeneous l -> exists r, sorted l = inr r.
Proof.
  induction l as [|x l IH]; simpl; intro H.
  - eexists. reflexivity.
  - destruct IH as [s E]; [eapply homogeneous_tail; eauto|].
    rewrite E. simpl. apply insert_sorted_defined.
    intros y Hy. apply H; [right | now left].
    eapply Permutation_in; [apply sorted_perm; exact E | exact Hy].
Qed.

Lemma insert_sorted_head_kind (x y : Key) (l r : list Key) :
  insert_sorted x (y :: l) = inr r -> same_kind y x = true.
Proof.
  simpl. destruct (key_lt y x) as [e|b] eqn:E; simpl; [discriminate|].
  intros _. eapply key_lt_same_kind; eauto.
Qed.

Lemma sorted_homogeneous (l r : list Key) : sorted l = inr r -> homogeneous l.
Proof.
  revert r. induction l as [|x l IH]; simpl; intros r H.
  - intros a b [].
  - destruct (sorted l) as [e|s] eqn:E; simpl in H; try discriminate.
    specialize (IH s eq_refl).
    assert (P : Permutation s l) by now apply sorted_perm.
    assert (K : forall z, In z l -> same_kind z x = true).
    { intros z Hz. destruct s as [|y s'].
      - apply Permutation_nil in P. subst. destruct Hz.
      - apply insert_sorted_head_kind in H.
        eapply same_kind_trans; [|exact H]. apply IH; [exact Hz|].
        eapply Permutation_in; [exact P | now left]. }
    intros a b [<-|Ha] [<-|Hb].
    + now destruct x.
    + rewrite same_kind_sym. now apply K.
    + now apply K.
    + now apply IH.
Qed.

Lemma insert_sorted_error (x : Key) (l : list Key) (e : exn) :
  insert_sorted x l = inl e -> e = TypeError.
Proof.
  induction l as [|y l IH]; simpl; [discriminate|].
  destruct (key_lt y x) as [e'|[|]] eqn:E; simpl.
  - intro H. injection H as <-. eapply key_lt_error; eauto.
  - destruct (insert_sorted x l); simpl; [|discriminate].
    intro H. injection H as <-. now apply IH.
  - discriminate.
Qed.

Lemma sorted_error (l : list Key) (e : exn) : sorted l = inl e -> e = TypeError.
Proof.
  induction l as [|x l IH]; simpl; [discriminate|].
  destruct (sorted l) as [e'|s]; simpl.
  - intro H. injection H as <-. now apply IH.
  - apply insert_sorted_error.
Qed.

(** A list in ascending order is determined by its elements. *)
Lemma strongly_sorted_unique (l1 l2 : list Key) :
  StronglySorted key_leP l1 -> StronglySorted key_leP l2 ->
  Permutation l1 l2 -> l1 = l2.
Proof.
  revert l2. induction l1 as [|a l1 IH]; intros l2 S1 S2 P.
  - apply Permutation_nil in P. now subst.
  - destruct l2 as [|b l2].
    + apply Permutation_sym, Permutation_nil in P. discriminate.
    + apply StronglySorted_inv in S1. destruct S1 as [S1 F1].
      apply StronglySorted_inv in S2. destruct S2 as [S2 F2].
      assert (a = b).
      { assert (Ha : In a (b :: l2))
          by (eapply Permutation_in; [exact P | now left]).
        assert (Hb : In b (a :: l1))
          by (eapply Permutation_in; [apply Permutation_sym; exact P | now left]).
        destruct Ha as [->|Ha]; [reflexivity|].
        destruct Hb as [->|Hb]; [reflexivity|].
        rewrite Forall_forall in F1, F2.
        apply key_le_antisym; auto. }
      subst b. f_equal. apply IH; auto.
      eapply Permutation_cons_inv; eauto.
Qed.

(** The result of [sorted] does not depend on the order of its argument. *)
Lemma sorted_permutation_invariant (l1 l2 : list Key) :
  Permutation l1 l2 -> sorted l1 = sorted l2.
Proof.
  intro P.
  destruct (sorted l1) as [e1|r1] eqn:E1, (sorted l2) as [e2|r2] eqn:E2.
  - apply sorted_error in E1, E2. congruence.
  - apply sorted_homogeneous in E2.
    destruct (sorted_defined l1) as [r E];
      [eapply homogeneous_perm; [apply Permutation_sym; exact P | exact E2]|].
    congruence.
  - apply sorted_homogeneous in E1.
    destruct (sorted_defined l2) as [r E];
      [eapply homogeneous_perm; [exact P | exact E1]|].
    congruence.
  - f_equal. apply strongly_sorted_unique; eauto using sorted_sorted.
    eapply Permutation_trans; [apply sorted_perm; exact E1|].
    eapply Permutation_trans; [exact P|].
    apply Permutation_sym, sorted_perm. exact E2.
Qed.

(** ** Sets kept as lists *)

Lemma set_add_In (s : list Key) (k x : Key) :
  In x (set_add s k) <-> In x s \/ x = k.
Proof.
  unfold set_add. destruct (key_in k s) eqn:E.
  - apply key_in_In in E. split; [now left|]. intros [H| ->]; assumption.
  - rewrite in_app_iff. simpl. intuition congruence.
Qed.

Lemma set_add_NoDup (s : list Key) (k : Key) : NoDup s -> NoDup (set_add s k).
Proof.
  intro N. unfold set_add. destruct (key_in k s) eqn:E; [assumption|].
  apply key_in_not_In in E.
  apply NoDup_app; [assumption | repeat constructor; intros [] |].
  intros x Hx [<-|[]]. contradiction.
Qed.

Lemma set_update_In (ks s : list Key) (x : Key) :
  In x (set_update s ks) <-> In x s \/ In x ks.
Proof.
  unfold set_update. revert s. induction ks as [|k ks IH]; intro s; simpl.
  - intuition.
  - rewrite IH, set_add_In. intuition congruence.
Qed.

Lemma set_update_NoDup (ks s : list Key) : NoDup s -> NoDup (set_update s ks).
Proof.
  unfold set_update. revert s. induction ks as [|k ks IH]; intros s N; simpl.
  - assumption.
  - apply IH. now apply set_add_NoDup.
Qed.

Lemma set_update_app (s a b : list Key) :
  set_update s (a ++ b) = set_update (set_update s a) b.
Proof. unfold set_update. apply fold_left_app. Qed.

Lemma set_diff_In (s excluded : list Key) (x : Key) :
  In x (set_diff s excluded) <-> In x s /\ ~ In x excluded.
Proof.
  unfold set_diff. rewrite filter_In, negb_true_iff, key_in_not_In. reflexivity.
Qed.

Lemma set_diff_NoDup (s excluded : list Key) : NoDup s -> NoDup (set_diff s excluded).
Proof. apply NoDup_filter. Qed.

(** ** [list.remove] and the expansion of a coordinate column *)

Lemma without_In (k x : Key) (l : list Key) : In x (without k l) <-> In x l /\ x <> k.
Proof.
  unfold without. rewrite filter_In, negb_true_iff, key_eqb_neq. reflexivity.
Qed.

Lemma without_absent (k : Key) (l : list Key) : ~ In k l -> without k l = l.
Proof.
  induction l as [|y l IH]; simpl; intro N; [reflexivity|].
  destruct (key_eqb y k) eqn:E; simpl.
  - apply key_eqb_eq in E. subst. exfalso. apply N. now left.
  - f_equal. apply IH. intro H. apply N. now right.
Qed.

Lemma list_remove_app (k : Key) (a b : list Key) :
  NoDup a -> In k a -> list_remove (a ++ b) k = inr (without k a ++ b).
Proof.
  induction a as [|y a IH]; simpl; intros N H; [destruct H|].
  apply NoDup_cons_iff in N. destruct N as [Ny N].
  destruct (key_eqb y k) eqn:E; simpl.
  - apply key_eqb_eq in E. subst. now rewrite without_absent.
  - destruct H as [->|H]; [now rewrite key_eqb_refl in E|].
    rewrite IH by assumption. reflexivity.
Qed.

Lemma key_in_app (k : Key) (a b : list Key) :
  key_in k (a ++ b) = key_in k a || key_in k b.
Proof. unfold key_in. apply existsb_app. Qed.

Lemma expand_app (name : Key) (columns a b : list Key) :
  NoDup a -> key_in name b = false ->
  expand name columns (a ++ b)
  = inr (without name a ++ b ++ (if key_in name a then columns else [])).
Proof.
  intros N Hb. unfold expand. rewrite key_in_app, Hb, orb_false_r.
  destruct (key_in name a) eqn:E.
  - apply key_in_In in E. rewrite list_remove_app by assumption.
    simpl. unfold ret. now rewrite app_assoc.
  - apply key_in_not_In in E. rewrite without_absent by assumption.
    now rewrite app_nil_r.
Qed.

Lemma derive_columns_shape (so : SetOrder) (keys columns : list Key) :
  NoDup keys ->
  derive_columns so keys = inr columns ->
  exists l0,
    sorted (set_diff keys excluded_keys) = inr l0 /\
    columns = tag_columns l0
              ++ group_if (key_in (KStr "GPSLatitude") keys) lat_columns
              ++ group_if (key_in (KStr "GPSLongitude") keys) long_columns.
Proof.
  intros N. unfold derive_columns.
  rewrite (sorted_permutation_invariant _ _ (set_iter_perm so _)).
  destruct (sorted (set_diff keys excluded_keys)) as [e|l0] eqn:E; simpl;
    [discriminate|].
  assert (P : Permutation l0 (set_diff keys excluded_keys))
    by now apply sorted_perm.
  assert (N0 : NoDup l0).
  { eapply Permutation_NoDup; [apply Permutation_sym; exact P|].
    now apply set_diff_NoDup. }
  assert (M : forall k, ~ In k excluded_keys -> key_in k l0 = key_in k keys).
  { intros k Hk. destruct (key_in k keys) eqn:K.
    - apply key_in_In. apply key_in_In in K.
      eapply Permutation_in; [apply Permutation_sym; exact P|].
      apply set_diff_In. now split.
    - apply key_in_not_In. apply key_in_not_In in K. intro H. apply K.
      apply (Permutation_in _ P) in H. now apply set_diff_In in H. }
  pose proof (expand_app (KStr "GPSLatitude") lat_columns l0 [] N0 eq_refl) as X1.
  rewrite app_nil_r in X1. simpl in X1. rewrite X1. simpl.
  assert (N1 : NoDup (without (KStr "GPSLatitude") l0)) by now apply NoDup_filter.
  assert (L : key_in (KStr "GPSLongitude")
                (if key_in (KStr "GPSLatitude") l0 then lat_columns else []) = false)
    by now destruct (key_in (KStr "GPSLatitude") l0).
  rewrite (expand_app (KStr "GPSLongitude") long_columns _ _ N1 L).
  intro H. injection H as <-. exists l0. split; [reflexivity|].
  unfold tag_columns, group_if.
  assert (K2 : key_in (KStr "GPSLongitude") (without (KStr "GPSLatitude") l0)
               = key_in (KStr "GPSLongitude") l0).
  { destruct (key_in (KStr "GPSLongitude") l0) eqn:K.
    - apply key_in_In. apply key_in_In in K. apply without_In.
      split; [assumption | discriminate].
    - apply key_in_not_In. apply key_in_not_In in K. intro H. apply K.
      now apply without_In in H. }
  rewrite K2, !M; [reflexivity | |];
    simpl; intros [H|[H|[]]]; discriminate.
Qed.

(** ** The discovery pass *)

Lemma discover_step_data tags w directory st filename :
  gps_data_list (discover_step tags w directory st filename)
  = gps_data_list st ++ recorded_entry tags w directory filename.
Proof.
  unfold discover_step, recorded_entry.
  destruct (endswith (str_lower filename) ".jpg"); [|now rewrite app_nil_r].
  destruct (get_gps_info tags (getexif w) (path_join directory filename))
    as [[|kv gps_info] lg]; simpl; [now rewrite app_nil_r | reflexivity].
Qed.

Lemma discover_step_keys tags w directory st filename :
  all_gps_keys (discover_step tags w directory st filename)
  = set_update (all_gps_keys st)
               (keys_of (recorded_entry tags w directory filename)).
Proof.
  unfold discover_step, recorded_entry, keys_of.
  destruct (endswith (str_lower filename) ".jpg"); [|reflexivity].
  destruct (get_gps_info tags (getexif w) (path_join directory filename))
    as [[|kv gps_info] lg]; simpl; [reflexivity|].
  now rewrite app_nil_r.
Qed.

Lemma keys_of_app (a b : list (string * TagMap)) :
  keys_of (a ++ b) = keys_of a ++ keys_of b.
Proof. unfold keys_of. apply flat_map_app. Qed.

Lemma discover_fold tags w directory (names : list string) (st : Discovery) :
  let st' := fold_left (discover_step tags w directory) names st in
  gps_data_list st' = gps_data_list st ++ recorded tags w directory names /\
  all_gps_keys st'
  = set_update (all_gps_keys st) (keys_of (recorded tags w directory names)).
Proof.
  revert st. induction names as [|f names IH]; intro st; simpl.
  - now rewrite app_nil_r.
  - destruct (IH (discover_step tags w directory st f)) as [D K].
    rewrite D, K, discover_step_data, discover_step_keys.
    rewrite keys_of_app, set_update_app, app_assoc. split; reflexivity.
Qed.

Lemma discover_data tags w directory :
  gps_data_list (discover tags w directory)
  = recorded tags w directory (listdir w directory).
Proof. unfold discover. now destruct (discover_fold tags w directory (listdir w directory)
    {| all_gps_keys := []; gps_data_list := []; discovery_log := [] |}). Qed.

Lemma discover_keys tags w directory :
  all_gps_keys (discover tags w directory)
  = set_update [] (keys_of (recorded tags w directory (listdir w directory))).
Proof. unfold discover. now destruct (discover_fold tags w directory (listdir w directory)
    {| all_gps_keys := []; gps_data_list := []; discovery_log := [] |}). Qed.

Lemma discover_keys_NoDup tags w directory :
  NoDup (all_gps_keys (discover tags w directory)).
Proof. rewrite discover_keys. apply set_update_NoDup. constructor. Qed.

Lemma recorded_entry_keys tags w directory filename k :
  In k (keys_of (recorded_entry tags w directory filename)) <->
  endswith (str_lower filename) ".jpg" = true /\
  In k (dict_keys (fst (get_gps_info tags (getexif w) (path_join directory filename)))).
Proof.
  unfold recorded_entry, keys_of.
  destruct (endswith (str_lower filename) ".jpg"); simpl; [|intuition congruence].
  destruct (fst (get_gps_info tags (getexif w) (path_join directory filename)))
    as [|kv gps_info]; simpl; [intuition|].
  rewrite app_nil_r. intuition.
Qed.

Lemma discover_keys_observed tags w directory k :
  In k (all_gps_keys (discover tags w directory)) <-> observed tags w directory k.
Proof.
  rewrite discover_keys, set_update_In. unfold observed, recorded.
  generalize (listdir w directory) as names. intro names. split.
  - intros [[]|H]. unfold keys_of in H. rewrite flat_map_concat_map in H.
    apply in_concat in H. destruct H as [ks [Hks Hk]].
    apply in_map_iff in Hks. destruct Hks as [entry [<- He]].
    apply in_flat_map in He. destruct He as [f [Hf He]].
    exists f. split; [assumption|].
    apply recorded_entry_keys. unfold keys_of. apply in_flat_map. eauto.
  - intros [f [Hf H]]. right. apply recorded_entry_keys in H.
    unfold keys_of in *. apply in_flat_map in H. destruct H as [entry [He Hk]].
    apply in_flat_map. exists entry. split; [|assumption].
    apply in_flat_map. eauto.
Qed.

(** ** parse_gps_coordinate *)

Lemma parse_three (v a b c : PyVal) :
  seq_items v = Some [a; b; c] -> parse_gps_coordinate v = ((a, b, c), []).
Proof.
  destruct v; simpl; try discriminate; intro H; injection H as ->; reflexivity.
Qed.

Lemma parse_list_not_three (l : list PyVal) (v : PyVal) :
  seq_items v = Some l -> List.length l <> 3%nat ->
  parse_gps_coordinate v = (sentinel, []).
Proof.
  intros Hv Hl. unfold parse_gps_coordinate, parse_gps_coordinate_body.
  destruct (py_bool v); [|reflexivity].
  destruct (is_list_or_tuple v); [|reflexivity].
  assert (L : py_len v = inr (Z.of_nat (List.length l)))
    by (destruct v; simpl in *; try discriminate; injection Hv as ->; reflexivity).
  rewrite L. simpl.
  destruct (Z.eqb_spec (Z.of_nat (List.length l)) 3) as [E|E]; [lia | reflexivity].
Qed.

Lemma parse_not_sequence (v : PyVal) :
  seq_items v = None -> parse_gps_coordinate v = (sentinel, []).
Proof.
  unfold parse_gps_coordinate, parse_gps_coordinate_body.
  destruct v; simpl; try discriminate; intros _;
    repeat match goal with |- context [if ?b then _ else _] => destruct b end;
    reflexivity.
Qed.

Lemma parse_otherwise (v : PyVal) :
  (forall a b c, seq_items v <> Some [a; b; c]) ->
  parse_gps_coordinate v = (sentinel, []).
Proof.
  intro H. destruct (seq_items v) as [l|] eqn:E.
  - apply (parse_list_not_three l); [assumption|].
    destruct l as [|a [|b [|c [|d l]]]]; simpl; try lia.
    exfalso. now apply (H a b c).
  - now apply parse_not_sequence.
Qed.

Lemma parse_no_log (v : PyVal) : snd (parse_gps_coordinate v) = [].
Proof.
  destruct (seq_items v) as [[|a [|b [|c [|d l]]]]|] eqn:E.
  4: now rewrite (parse_three v a b c E).
  1-4: erewrite parse_list_not_three; [reflexivity | exact E | simpl; lia].
  now rewrite parse_not_sequence.
Qed.

(** ** calculate_decimal *)

Lemma calculate_decimal_numbers (rt : Runtime) (d m s : PyVal) (fd fm fs : float) :
  py_float rt d = inr fd -> py_float rt m = inr fm -> py_float rt s = inr fs ->
  calculate_decimal rt d m s = (VFloat (fd + fm / 60 + fs / 3600)%float, []).
Proof.
  intros Hd Hm Hs. unfold calculate_decimal, calculate_decimal_body.
  now rewrite Hd, Hm, Hs.
Qed.

Lemma calculate_decimal_failure (rt : Runtime) (d m s : PyVal) :
  (exists e, py_float rt d = inl e) \/ (exists e, py_float rt m = inl e)
  \/ (exists e, py_float rt s = inl e) ->
  exists e, calculate_decimal rt d m s = (VStr "", [ErrCalculatingDecimal e]).
Proof.
  unfold calculate_decimal, calculate_decimal_body.
  intros [[e H]|[[e H]|[e H]]];
    destruct (py_float rt d) as [e1|fd]; simpl; eauto;
    destruct (py_float rt m) as [e2|fm]; simpl; eauto;
    destruct (py_float rt s) as [e3|fs]; simpl; eauto; discriminate.
Qed.

Lemma py_float_empty (rt : Runtime) : py_float rt (VStr "") = inl ValueError.
Proof. simpl. now rewrite float_of_text_empty. Qed.

Lemma calculate_decimal_sentinel (rt : Runtime) :
  calculate_decimal rt (VStr "") (VStr "") (VStr "")
  = (VStr "", [ErrCalculatingDecimal ValueError]).
Proof.
  unfold calculate_decimal, calculate_decimal_body. now rewrite py_float_empty.
Qed.

(** ** One row *)

Lemma parse_eta (v : PyVal) :
  parse_gps_coordinate v = (fst (parse_gps_coordinate v), []).
Proof.
  pose proof (parse_no_log v) as H.
  destruct (parse_gps_coordinate v) as [t lg]. simpl in *. now subst.
Qed.

(** The body of the column loop as one chain of tests on the key. *)
Lemma row_step_cases (rt : Runtime) (gps_info : TagMap) (st : RowState) (key : Key) :
  row_step rt gps_info st key =
  let '(lat_d, lat_m, lat_s) := lat_of gps_info in
  let '(long_d, long_m, long_s) := long_of gps_info in
  if key_eqb key (KStr "GPSLatitudeDegree") then
    append_cell (set_lat_degree st lat_d) lat_d []
  else if key_eqb key (KStr "GPSLatitudeMinutes") then
    append_cell (set_lat_minutes st lat_m) lat_m []
  else if key_eqb key (KStr "GPSLatitudeSeconds") then
    append_cell (set_lat_seconds st lat_s) lat_s []
  else if key_eqb key (KStr "GPSLatitudeDecimal") then
    append_cell st
      (fst (calculate_decimal rt (gps_lat_degree st) (gps_lat_minutes st)
              (gps_lat_seconds st)))
      (snd (calculate_decimal rt (gps_lat_degree st) (gps_lat_minutes st)
              (gps_lat_seconds st)))
  else if key_eqb key (KStr "GPSLongDegree") then
    append_cell (set_long_degree st long_d) long_d []
  else if key_eqb key (KStr "GPSLongMinutes") then
    append_cell (set_long_minutes st long_m) long_m []
  else if key_eqb key (KStr "GPSLongSeconds") then
    append_cell (set_long_seconds st long_s) long_s []
  else if key_eqb key (KStr "GPSLongitudeDecimal") then
    append_cell st
      (fst (calculate_decimal rt (gps_long_degree st) (gps_long_minutes st)
              (gps_long_seconds st)))
      (snd (calculate_decimal rt (gps_long_degree st) (gps_long_minutes st)
              (gps_long_seconds st)))
  else append_cell st (dict_get_default gps_info key (VStr "")) [].
Proof.
  unfold row_step, lat_of, long_of, key_in. cbn [existsb].
  rewrite (parse_eta (dict_get_default gps_info (KStr "GPSLatitude") VNone)).
  rewrite (parse_eta (dict_get_default gps_info (KStr "GPSLongitude") VNone)).
  destruct (fst (parse_gps_coordinate
                   (dict_get_default gps_info (KStr "GPSLatitude") VNone)))
    as [[lat_d lat_m] lat_s].
  destruct (fst (parse_gps_coordinate
                   (dict_get_default gps_info (KStr "GPSLongitude") VNone)))
    as [[long_d long_m] long_s].
  destruct (calculate_decimal rt (gps_lat_degree st) (gps_lat_minutes st)
              (gps_lat_seconds st)) as [lat_dec lat_lg].
  destruct (calculate_decimal rt (gps_long_degree st) (gps_long_minutes st)
              (gps_long_seconds st)) as [long_dec long_lg].
  cbn [fst snd].
  destruct (key_eqb key (KStr "GPSLatitudeDegree")); [reflexivity|].
  destruct (key_eqb key (KStr "GPSLatitudeMinutes")); [reflexivity|].
  destruct (key_eqb key (KStr "GPSLatitudeSeconds")); [reflexivity|].
  cbn [orb].
  destruct (key_eqb key (KStr "GPSLatitudeDecimal")); [reflexivity|].
  destruct (key_eqb key (KStr "GPSLongDegree")); [reflexivity|].
  destruct (key_eqb key (KStr "GPSLongMinutes")); [reflexivity|].
  destruct (key_eqb key (KStr "GPSLongSeconds")); [reflexivity|].
  cbn [orb].
  destruct (key_eqb key (KStr "GPSLongitudeDecimal")); reflexivity.
Qed.

(** Every column appends exactly one cell. *)
Lemma row_step_row (rt : Runtime) (gps_info : TagMap) (st : RowState) (key : Key) :
  exists cell, row (row_step rt gps_info st key) = row st ++ [cell].
Proof.
  rewrite row_step_cases.
  destruct (lat_of gps_info) as [[lat_d lat_m] lat_s].
  destruct (long_of gps_info) as [[long_d long_m] long_s].
  repeat match goal with
         | |- context [if ?b then _ else _] => destruct b
         end; eexists; reflexivity.
Qed.

Lemma fold_row_prefix (rt : Runtime) (gps_info : TagMap) (columns : list Key)
  (st : RowState) :
  exists cells,
    row (fold_left (row_step rt gps_info) columns st) = row st ++ cells /\
    List.length cells = List.length columns.
Proof.
  revert st. induction columns as [|k columns IH]; intro st; simpl.
  - exists []. now rewrite app_nil_r.
  - destruct (IH (row_step rt gps_info st k)) as [cells [E L]].
    destruct (row_step_row rt gps_info st k) as [cell C].
    exists (cell :: cells). rewrite E, C, <- app_assoc. simpl. split; congruence.
Qed.

(** A row starts with the file name and has one cell per column. *)
Lemma build_row_shape (rt : Runtime) (columns : list Key) (entry : string * TagMap) :
  exists cells,
    row (build_row rt columns entry) = VStr (fst entry) :: cells /\
    List.length cells = List.length columns.
Proof.
  unfold build_row.
  destruct (fold_row_prefix rt (snd entry) columns (row_init (fst entry)))
    as [cells [E L]].
  exists cells. now rewrite E.
Qed.

Lemma plain_tests (key : Key) :
  plain key ->
  key_eqb key (KStr "GPSLatitudeDegree") = false /\
  key_eqb key (KStr "GPSLatitudeMinutes") = false /\
  key_eqb key (KStr "GPSLatitudeSeconds") = false /\
  key_eqb key (KStr "GPSLatitudeDecimal") = false /\
  key_eqb key (KStr "GPSLongDegree") = false /\
  key_eqb key (KStr "GPSLongMinutes") = false /\
  key_eqb key (KStr "GPSLongSeconds") = false /\
  key_eqb key (KStr "GPSLongitudeDecimal") = false.
Proof.
  intro P.
  repeat split; apply key_eqb_neq; intros ->; apply P;
    unfold derived_columns, lat_columns, long_columns; simpl; auto 10.
Qed.

Lemma row_step_plain (rt : Runtime) (gps_info : TagMap) (st : RowState) (key : Key) :
  plain key ->
  row_step rt gps_info st key
  = append_cell st (dict_get_default gps_info key (VStr "")) [].
Proof.
  intro P. rewrite row_step_cases.
  destruct (lat_of gps_info) as [[lat_d lat_m] lat_s].
  destruct (long_of gps_info) as [[long_d long_m] long_s].
  destruct (plain_tests key P) as (E1 & E2 & E3 & E4 & E5 & E6 & E7 & E8).
  now rewrite E1, E2, E3, E4, E5, E6, E7, E8.
Qed.

Lemma memo_cell_plain (rt : Runtime) (gps_info : TagMap)
  (lat long : PyVal * PyVal * PyVal) (key : Key) :
  plain key ->
  memo_cell rt gps_info lat long key = dict_get_default gps_info key (VStr "").
Proof.
  intro P. unfold memo_cell.
  destruct lat as [[lat_d lat_m] lat_s], long as [[long_d long_m] long_s].
  destruct (plain_tests key P) as (E1 & E2 & E3 & E4 & E5 & E6 & E7 & E8).
  now rewrite E1, E2, E3, E4, E5, E6, E7, E8.
Qed.

Lemma fold_plain_row (rt : Runtime) (gps_info : TagMap) (columns : list Key)
  (st : RowState) :
  Forall plain columns ->
  row (fold_left (row_step rt gps_info) columns st)
  = row st ++ map (memo_cell rt gps_info (lat_of gps_info) (long_of gps_info)) columns.
Proof.
  intro F. revert st. induction F as [|k columns P F IH]; intro st; simpl.
  - now rewrite app_nil_r.
  - rewrite IH, row_step_plain, memo_cell_plain by assumption.
    simpl. now rewrite <- app_assoc.
Qed.

Ltac split_coordinates gps_info :=
  destruct (lat_of gps_info) as [[? ?] ?];
  destruct (long_of gps_info) as [[? ?] ?].

Lemma step_lat_degree (rt : Runtime) (gps_info : TagMap) (st : RowState) :
  row_step rt gps_info st (KStr "GPSLatitudeDegree")
  = append_cell (set_lat_degree st (fst (fst (lat_of gps_info))))
                (fst (fst (lat_of gps_info))) [].
Proof. rewrite row_step_cases. split_coordinates gps_info. reflexivity. Qed.

Lemma step_lat_minutes (rt : Runtime) (gps_info : TagMap) (st : RowState) :
  row_step rt gps_info st (KStr "GPSLatitudeMinutes")
  = append_cell (set_lat_minutes st (snd (fst (lat_of gps_info))))
                (snd (fst (lat_of gps_info))) [].
Proof. rewrite row_step_cases. split_coordinates gps_info. reflexivity. Qed.

Lemma step_lat_seconds (rt : Runtime) (gps_info : TagMap) (st : RowState) :
  row_step rt gps_info st (KStr "GPSLatitudeSeconds")
  = append_cell (set_lat_seconds st (snd (lat_of gps_info)))
                (snd (lat_of gps_info)) [].
Proof. rewrite row_step_cases. split_coordinates gps_info. reflexivity. Qed.

Lemma step_lat_decimal (rt : Runtime) (gps_info : TagMap) (st : RowState) :
  row_step rt gps_info st (KStr "GPSLatitudeDecimal")
  = append_cell st
      (fst (calculate_decimal rt (gps_lat_degree st) (gps_lat_minutes st)
              (gps_lat_seconds st)))
      (snd (calculate_decimal rt (gps_lat_degree st) (gps_lat_minutes st)
              (gps_lat_seconds st))).
Proof. rewrite row_step_cases. split_coordinates gps_info. reflexivity. Qed.

Lemma step_long_degree (rt : Runtime) (gps_info : TagMap) (st : RowState) :
  row_step rt gps_info st (KStr "GPSLongDegree")
  = append_cell (set_long_degree st (fst (fst (long_of gps_info))))
                (fst (fst (long_of gps_info))) [].
Proof. rewrite row_step_cases. split_coordinates gps_info. reflexivity. Qed.

Lemma step_long_minutes (rt : Runtime) (gps_info : TagMap) (st : RowState) :
  row_step rt gps_info st (KStr "GPSLongMinutes")
  = append_cell (set_long_minutes st (snd (fst (long_of gps_info))))
                (snd (fst (long_of gps_info))) [].
Proof. rewrite row_step_cases. split_coordinates gps_info. reflexivity. Qed.

Lemma step_long_seconds (rt : Runtime) (gps_info : TagMap) (st : RowState) :
  row_step rt gps_info st (KStr "GPSLongSeconds")
  = append_cell (set_long_seconds st (snd (long_of gps_info)))
                (snd (long_of gps_info)) [].
Proof. rewrite row_step_cases. split_coordinates gps_info. reflexivity. Qed.

Lemma step_long_decimal (rt : Runtime) (gps_info : TagMap) (st : RowState) :
  row_step rt gps_info st (KStr "GPSLongitudeDecimal")
  = append_cell st
      (fst (calculate_decimal rt (gps_long_degree st) (gps_long_minutes st)
              (gps_long_seconds st)))
      (snd (calculate_decimal rt (gps_long_degree st) (gps_long_minutes st)
              (gps_long_seconds st))).
Proof. rewrite row_step_cases. split_coordinates gps_info. reflexivity. Qed.

Lemma fold_lat_row (rt : Runtime) (gps_info : TagMap) (st : RowState) :
  row (fold_left (row_step rt gps_info) lat_columns st)
  = row st ++ map (memo_cell rt gps_info (lat_of gps_info) (long_of gps_info))
                  lat_columns.
Proof.
  unfold lat_columns. cbn [fold_left map].
  rewrite step_lat_degree, step_lat_minutes, step_lat_seconds, step_lat_decimal.
  unfold memo_cell. split_coordinates gps_info. destruct st. simpl.
  now rewrite <- !app_assoc.
Qed.

Lemma fold_long_row (rt : Runtime) (gps_info : TagMap) (st : RowState) :
  row (fold_left (row_step rt gps_info) long_columns st)
  = row st ++ map (memo_cell rt gps_info (lat_of gps_info) (long_of gps_info))
                  long_columns.
Proof.
  unfold long_columns. cbn [fold_left map].
  rewrite step_long_degree, step_long_minutes, step_long_seconds, step_long_decimal.
  unfold memo_cell. split_coordinates gps_info. destruct st. simpl.
  now rewrite <- !app_assoc.
Qed.

(** On columns in the derived order, the loop computes the memoized row. *)
Lemma build_row_refines (rt : Runtime) (tag_cols : list Key) (b1 b2 : bool)
  (entry : string * TagMap) :
  Forall plain tag_cols ->
  let columns := tag_cols ++ group_if b1 lat_columns ++ group_if b2 long_columns in
  row (build_row rt columns entry) = build_row_memo rt columns entry.
Proof.
  intros F columns. unfold build_row, build_row_memo, columns.
  fold (lat_of (snd entry)). fold (long_of (snd entry)).
  rewrite !fold_left_app, !map_app.
  assert (G2 : forall st,
    row (fold_left (row_step rt (snd entry)) (group_if b2 long_columns) st)
    = row st ++ map (memo_cell rt (snd entry) (lat_of (snd entry)) (long_of (snd entry)))
                    (group_if b2 long_columns)).
  { intro st. destruct b2; [apply fold_long_row | simpl; now rewrite app_nil_r]. }
  assert (G1 : forall st,
    row (fold_left (row_step rt (snd entry)) (group_if b1 lat_columns) st)
    = row st ++ map (memo_cell rt (snd entry) (lat_of (snd entry)) (long_of (snd entry)))
                    (group_if b1 lat_columns)).
  { intro st. destruct b1; [apply fold_lat_row | simpl; now rewrite app_nil_r]. }
  rewrite G2, G1, fold_plain_row by assumption.
  simpl. now rewrite <- !app_assoc.
Qed.

Lemma row_step_lat_unset (rt : Runtime) (gps_info : TagMap) (st : RowState) (key : Key) :
  lat_of gps_info = sentinel -> lat_unset st ->
  lat_unset (row_step rt gps_info st key)
  /\ (key = KStr "GPSLatitudeDecimal" ->
      row (row_step rt gps_info st key) = row st ++ [VStr ""]).
Proof.
  intros L [Hd [Hm Hs]]. rewrite row_step_cases, L. unfold sentinel.
  destruct (long_of gps_info) as [[long_d long_m] long_s].
  destruct (key_eqb key (KStr "GPSLatitudeDegree")) eqn:E1.
  { apply key_eqb_eq in E1. subst. split; [now repeat split | discriminate]. }
  destruct (key_eqb key (KStr "GPSLatitudeMinutes")) eqn:E2.
  { apply key_eqb_eq in E2. subst. split; [now repeat split | discriminate]. }
  destruct (key_eqb key (KStr "GPSLatitudeSeconds")) eqn:E3.
  { apply key_eqb_eq in E3. subst. split; [now repeat split | discriminate]. }
  destruct (key_eqb key (KStr "GPSLatitudeDecimal")) eqn:E4.
  { split; [now repeat split|]. intros _. simpl.
    now rewrite Hd, Hm, Hs, calculate_decimal_sentinel. }
  apply key_eqb_neq in E4.
  repeat match goal with
         | |- context [if ?b then _ else _] => destruct b
         end; (split; [now repeat split | intro; contradiction]).
Qed.

Lemma fold_lat_decimal_empty (rt : Runtime) (gps_info : TagMap) (columns : list Key) :
  lat_of gps_info = sentinel ->
  forall (st : RowState) (i : nat),
    lat_unset st ->
    nth_error columns i = Some (KStr "GPSLatitudeDecimal") ->
    nth_error (row (fold_left (row_step rt gps_info) columns st))
              (List.length (row st) + i) = Some (VStr "").
Proof.
  intro L. induction columns as [|k columns IH]; intros st i U N.
  - destruct i; discriminate.
  - destruct (row_step_lat_unset rt gps_info st k L U) as [U' C].
    destruct i as [|i]; simpl in N |- *.
    + injection N as ->. specialize (C eq_refl).
      destruct (fold_row_prefix rt gps_info columns
                  (row_step rt gps_info st (KStr "GPSLatitudeDecimal")))
        as [cells [E _]].
      rewrite E, C, <- app_assoc, Nat.add_0_r.
      rewrite nth_error_app2 by lia. now rewrite Nat.sub_diag.
    + specialize (IH (row_step rt gps_info st k) i U' N).
      destruct (row_step_row rt gps_info st k) as [cell R].
      rewrite R, length_app in IH. simpl in IH.
      replace (List.length (row st) + S i)%nat
        with (List.length (row st) + 1 + i)%nat by lia.
      exact IH.
Qed.

(** * The claims *)

Lemma parse_body_total (v : PyVal) : exists r, parse_gps_coordinate_body v = inr r.
Proof.
  unfold parse_gps_coordinate_body.
  destruct (py_bool v); [|eexists; reflexivity].
  destruct v; simpl; try (eexists; reflexivity).
  - destruct (Z.eqb_spec (Z.of_nat (List.length items)) 3) as [E|E];
      [|eexists; reflexivity].
    destruct items as [|a [|b [|c [|d l]]]]; simpl in E; try lia.
    eexists; reflexivity.
  - destruct (Z.eqb_spec (Z.of_nat (List.length items)) 3) as [E|E];
      [|eexists; reflexivity].
    destruct items as [|a [|b [|c [|d l]]]]; simpl in E; try lia.
    eexists; reflexivity.
Qed.

(** C9. [parse_gps_coordinate] is total: on every value the [try] block
    finishes without an exception (nothing is printed) and a triple is
    returned.  It returns the three elements exactly for a [list] or [tuple]
    of length 3; every other value gives [('', '', '')], among them a string
    of three characters, three bytes, and a dictionary with the keys 0, 1
    and 2, although each of them has length 3 and can be indexed. *)
Theorem parse_gps_coordinate_total (v : PyVal) :
  (exists r, parse_gps_coordinate_body v = inr r) /\
  parse_gps_coordinate v
  = (match seq_items v with
     | Some [a; b; c] => (a, b, c)
     | _ => sentinel
     end, []) /\
  parse_gps_coordinate (VStr "abc") = (sentinel, []) /\
  parse_gps_coordinate (VBytes "abc") = (sentinel, []) /\
  parse_gps_coordinate (VDict [(0, VInt 1); (1, VInt 2); (2, VInt 3)])
  = (sentinel, []).
Proof.
  split; [apply parse_body_total|].
  split; [|repeat split].
  destruct (seq_items v) as [[|a [|b [|c [|d l]]]]|] eqn:E.
  4: now apply parse_three.
  1-4: eapply parse_list_not_three; [exact E | simpl; lia].
  now apply parse_not_sequence.
Qed.

(** C2, as the specification states it, fails on a string of three
    characters: it has length 3 and its elements can be read at the indices
    0, 1 and 2, yet [parse_gps_coordinate] returns [('', '', '')] and not
    the three elements. *)
Lemma three_character_string_is_rejected :
  py_len (VStr "abc") = inr 3 /\
  py_getitem (VStr "abc") 0 = inr (VStr "a") /\
  py_getitem (VStr "abc") 1 = inr (VStr "b") /\
  py_getitem (VStr "abc") 2 = inr (VStr "c") /\
  parse_gps_coordinate (VStr "abc") = (sentinel, []) /\
  fst (parse_gps_coordinate (VStr "abc")) <> (VStr "a", VStr "b", VStr "c").
Proof. repeat split. discriminate. Qed.

(** C2 (amended). [parse_gps_coordinate] returns the three elements of a
    value that is a [list] or a [tuple] of exactly three elements, in their
    order, and [('', '', '')] for every other value; it never prints.  A
    [list] or [tuple] of two elements gives [('', '', '')], and in the row of
    an image whose GPSLatitude is such a value the cell under
    GPSLatitudeDecimal is the empty string, in whatever position that column
    stands. *)
Theorem parse_gps_coordinate_contract (rt : Runtime) (v : PyVal) :
  (forall a b c,
     seq_items v = Some [a; b; c] -> parse_gps_coordinate v = ((a, b, c), [])) /\
  ((forall a b c, seq_items v <> Some [a; b; c]) ->
   parse_gps_coordinate v = (sentinel, [])) /\
  (forall a b,
     seq_items v = Some [a; b] ->
     parse_gps_coordinate v = (sentinel, []) /\
     forall columns filename gps_info i,
       dict_get gps_info (KStr "GPSLatitude") = Some v ->
       nth_error columns i = Some (KStr "GPSLatitudeDecimal") ->
       nth_error (row (build_row rt columns (filename, gps_info))) (S i)
       = Some (VStr "")).
Proof.
  split; [intros a b c; apply parse_three|].
  split; [apply parse_otherwise|].
  intros a b Hv.
  assert (P : parse_gps_coordinate v = (sentinel, []))
    by (eapply parse_list_not_three; [exact Hv | simpl; lia]).
  split; [exact P|].
  intros columns filename gps_info i Hg Hi. unfold build_row. simpl.
  apply (fold_lat_decimal_empty rt gps_info columns) with (st := row_init filename).
  - unfold lat_of, dict_get_default. now rewrite Hg, P.
  - now repeat split.
  - exact Hi.
Qed.

Lemma parse_gps_coordinate_contract_witness :
  parse_gps_coordinate (VTuple [VInt 10; VInt 30; VInt 0])
  = ((VInt 10, VInt 30, VInt 0), []) /\
  parse_gps_coordinate VNone = (sentinel, []) /\
  parse_gps_coordinate (VList [VInt 10; VInt 30]) = (sentinel, []) /\
  nth_error
    (row (build_row example_runtime
            [KStr "GPSLatitudeRef"; KStr "GPSLatitudeDegree";
             KStr "GPSLatitudeMinutes"; KStr "GPSLatitudeSeconds";
             KStr "GPSLatitudeDecimal"]
            ("d.jpg", [(KStr "GPSLatitudeRef", VStr "N");
                       (KStr "GPSLatitude", VList [VInt 10; VInt 30])])))
    5 = Some (VStr "").
Proof.
  split.
  { apply (parse_gps_coordinate_contract example_runtime
             (VTuple [VInt 10; VInt 30; VInt 0])). reflexivity. }
  split.
  { apply (parse_gps_coordinate_contract example_runtime VNone).
    intros a b c. discriminate. }
  destruct (parse_gps_coordinate_contract example_runtime
              (VList [VInt 10; VInt 30])) as [_ [_ H]].
  destruct (H (VInt 10) (VInt 30) eq_refl) as [H1 H2].
  split; [exact H1|].
  apply H2; reflexivity.
Defined.

(** C3. When [float()] converts the three arguments, [calculate_decimal]
    returns the binary64 number [deg + min/60 + sec/3600], computed left to
    right, and prints nothing: 10.5 on (10, 30, 0) and 2.0 on (1, 0, 3600).
    When one of the conversions raises, it returns [''] and prints one
    diagnostic with the exception; so it does on the empty string. *)
Theorem calculate_decimal_contract (rt : Runtime) (degree minutes seconds : PyVal) :
  (forall fd fm fs,
     py_float rt degree = inr fd -> py_float rt minutes = inr fm ->
     py_float rt seconds = inr fs ->
     calculate_decimal rt degree minutes seconds
     = (VFloat (fd + fm / 60 + fs / 3600)%float, [])) /\
  ((exists e, py_float rt degree = inl e) \/ (exists e, py_float rt minutes = inl e)
   \/ (exists e, py_float rt seconds = inl e) ->
   exists e, calculate_decimal rt degree minutes seconds
             = (VStr "", [ErrCalculatingDecimal e])) /\
  calculate_decimal rt (VInt 10) (VInt 30) (VInt 0) = (VFloat 10.5%float, []) /\
  calculate_decimal rt (VInt 1) (VInt 0) (VInt 3600) = (VFloat 2%float, []) /\
  calculate_decimal rt (VStr "") minutes seconds
  = (VStr "", [ErrCalculatingDecimal ValueError]).
Proof.
  split; [intros fd fm fs; apply calculate_decimal_numbers|].
  split; [apply calculate_decimal_failure|].
  split; [reflexivity|]. split; [reflexivity|].
  unfold calculate_decimal, calculate_decimal_body. now rewrite py_float_empty.
Qed.

Lemma calculate_decimal_contract_witness :
  calculate_decimal example_runtime (VInt 20) (VInt 15) (VInt 0)
  = (VFloat 20.25%float, []) /\
  exists e, calculate_decimal example_runtime (VInt 20) VNone (VInt 0)
            = (VStr "", [ErrCalculatingDecimal e]).
Proof.
  destruct (calculate_decimal_contract example_runtime (VInt 20) (VInt 15) (VInt 0))
    as [H _].
  destruct (calculate_decimal_contract example_runtime (VInt 20) VNone (VInt 0))
    as [_ [F _]].
  split.
  - apply (H 20%float 15%float 0%float); reflexivity.
  - apply F. right. left. exists TypeError. reflexivity.
Defined.

(** ** Keys of an extracted TagMap *)

Lemma dict_set_keys (d : TagMap) (k : Key) (v : PyVal) (x : Key) :
  In x (dict_keys (dict_set d k v)) <-> x = k \/ In x (dict_keys d).
Proof.
  unfold dict_keys. induction d as [|[k' v'] d IH]; simpl.
  - intuition.
  - destruct (key_eqb k' k) eqn:E; simpl.
    + apply key_eqb_eq in E. subst. intuition.
    + rewrite IH. intuition.
Qed.

Lemma copy_gps_items_keys (tags : ExifTags) (items : list (Z * PyVal))
  (d : TagMap) (x : Key) :
  In x (dict_keys (copy_gps_items tags items d)) <->
  In x (dict_keys d) \/ exists id v, In (id, v) items /\ x = gps_tag_of tags id.
Proof.
  unfold copy_gps_items. revert d.
  induction items as [|[id v] items IH]; intro d; simpl.
  - split; [now left | intros [H|(id & v & [] & _)]; exact H].
  - rewrite IH, dict_set_keys. simpl. split.
    + intros [[->|H]|(id' & v' & H & ->)]; eauto 8.
    + intros [H|(id' & v' & [H|H] & ->)]; eauto 8.
      injection H as -> ->. now left; left.
Qed.

Lemma scan_exif_at (tags : ExifTags) (before after : list (Z * PyVal))
  (tag_id : Z) (value : PyVal) (d : TagMap) :
  (forall t x, In (t, x) before -> is_GPSInfo tags t = false) ->
  is_GPSInfo tags tag_id = true ->
  scan_exif tags (before ++ (tag_id, value) :: after) d
  = (items <- py_items value ;; ret (copy_gps_items tags items d)).
Proof.
  intros B G. induction before as [|[t x] before IH]; simpl.
  - now rewrite G.
  - rewrite (B t x) by now left. apply IH. intros t' x' H. apply (B t' x'). now right.
Qed.

Lemma scan_exif_keys (tags : ExifTags) (exif_items : list (Z * PyVal))
  (gps_info : TagMap) (x : Key) :
  scan_exif tags exif_items [] = inr gps_info ->
  In x (dict_keys gps_info) -> exists id, x = gps_tag_of tags id.
Proof.
  induction exif_items as [|[t v] exif_items IH]; simpl.
  - intro H. injection H as <-. intros [].
  - destruct (is_GPSInfo tags t); [|exact IH].
    destruct (py_items v) as [e|items]; simpl; [discriminate|].
    intro H. injection H as <-. rewrite copy_gps_items_keys.
    intros [[]|(id & _ & _ & ->)]. eauto.
Qed.

Lemma get_gps_info_keys (tags : ExifTags) (getexif : Decoder) (path : string)
  (x : Key) :
  In x (dict_keys (fst (get_gps_info tags getexif path))) ->
  exists id, x = gps_tag_of tags id.
Proof.
  unfold get_gps_info.
  destruct (get_gps_info_body tags getexif path) as [e|gps_info] eqn:E;
    cbn [fst dict_keys map]; [intros []|].
  unfold get_gps_info_body in E.
  destruct (getexif path) as [e|[[|it items]|]]; cbn [bind] in E;
    try discriminate; try (injection E as <-; intros []).
  now apply scan_exif_keys with (exif_items := it :: items).
Qed.

(** ** The whole export in terms of the recorded entries *)

Lemma csv_recorded rt so tags w directory output_csv :
  csv (write_gps_to_csv rt so tags w directory output_csv)
  = csv_from rt so (recorded tags w directory (listdir w directory)).
Proof.
  unfold write_gps_to_csv, csv_from.
  rewrite discover_keys, discover_data.
  destruct (derive_columns so _); simpl; [reflexivity|].
  now rewrite map_map.
Qed.

Lemma recorded_app tags w directory (a b : list string) :
  recorded tags w directory (a ++ b)
  = recorded tags w directory a ++ recorded tags w directory b.
Proof. unfold recorded. apply flat_map_app. Qed.

Lemma get_gps_info_raises tags (getexif : Decoder) (path : string) (e : exn) :
  get_gps_info_body tags getexif path = inl e ->
  get_gps_info tags getexif path = ([], [ErrReadingGPSInfo path e]).
Proof. unfold get_gps_info. now intros ->. Qed.

(** C7. Whatever is raised while the image is opened or decoded, and
    whatever is raised later in the [try] block, [get_gps_info] returns the
    empty TagMap and prints one line with the path and the exception.  The
    export then goes on: the rows it writes are those it writes for the
    directory without that file. *)
Theorem decode_failure_is_isolated (rt : Runtime) (so : SetOrder) (tags : ExifTags)
  (w : World) (directory output_csv filename : string)
  (before after : list string) (e : exn) :
  listdir w directory = before ++ filename :: after ->
  getexif w (path_join directory filename) = inl e ->
  get_gps_info tags (getexif w) (path_join directory filename)
  = ([], [ErrReadingGPSInfo (path_join directory filename) e]) /\
  (forall path e',
     get_gps_info_body tags (getexif w) path = inl e' ->
     get_gps_info tags (getexif w) path = ([], [ErrReadingGPSInfo path e'])) /\
  csv (write_gps_to_csv rt so tags w directory output_csv)
  = csv (write_gps_to_csv rt so tags (with_listing w (before ++ after))
           directory output_csv).
Proof.
  intros L D.
  assert (G : get_gps_info tags (getexif w) (path_join directory filename)
              = ([], [ErrReadingGPSInfo (path_join directory filename) e])).
  { apply get_gps_info_raises. unfold get_gps_info_body. now rewrite D. }
  split; [exact G|]. split; [intros path e'; apply get_gps_info_raises|].
  rewrite !csv_recorded, L. simpl.
  change (recorded tags (with_listing w (before ++ after)) directory (before ++ after))
    with (recorded tags w directory (before ++ after)).
  rewrite !recorded_app. simpl.
  replace (recorded_entry tags w directory filename) with (@nil (string * TagMap));
    [reflexivity|].
  unfold recorded_entry. rewrite G. simpl.
  now destruct (endswith (str_lower filename) ".jpg").
Qed.

Lemma decode_failure_is_isolated_witness :
  get_gps_info pillow_tags (getexif photos) "photos/c.jpg"
  = ([], [ErrReadingGPSInfo "photos/c.jpg" (DecoderError "image file is truncated")]) /\
  csv (write_gps_to_csv example_runtime insertion_order pillow_tags photos
         "photos" "out.csv")
  = csv (write_gps_to_csv example_runtime insertion_order pillow_tags
           (with_listing photos ["a.jpg"; "b.JPG"; "notes.txt"; "d.jpg"])
           "photos" "out.csv").
Proof.
  destruct (decode_failure_is_isolated example_runtime insertion_order pillow_tags
              photos "photos" "out.csv" "c.jpg" ["a.jpg"; "b.JPG"; "notes.txt"]
              ["d.jpg"] (DecoderError "image file is truncated")
              eq_refl eq_refl) as [H1 [_ H2]].
  split; [exact H1 | exact H2].
Defined.

(** ** The header *)

Lemma export_shape rt so tags w directory output_csv (written : list (list PyVal)) :
  csv (write_gps_to_csv rt so tags w directory output_csv) = Some written ->
  exists l0,
    let keys := all_gps_keys (discover tags w directory) in
    let columns :=
      tag_columns l0
      ++ group_if (key_in (KStr "GPSLatitude") keys) lat_columns
      ++ group_if (key_in (KStr "GPSLongitude") keys) long_columns in
    sorted (set_diff keys excluded_keys) = inr l0 /\
    written = (VStr "Image Name" :: map key_val columns)
              :: map (fun entry => row (build_row rt columns entry))
                     (recorded tags w directory (listdir w directory)).
Proof.
  unfold write_gps_to_csv.
  destruct (derive_columns so (all_gps_keys (discover tags w directory)))
    as [e|columns] eqn:D; simpl; [discriminate|].
  intro H. injection H as <-.
  apply derive_columns_shape in D; [|apply discover_keys_NoDup].
  destruct D as [l0 [S ->]]. exists l0. split; [exact S|].
  now rewrite discover_data, map_map.
Qed.

Lemma StronglySorted_filter {A : Type} (R : A -> A -> Prop) (f : A -> bool)
  (l : list A) :
  StronglySorted R l -> StronglySorted R (filter f l).
Proof.
  induction 1 as [|a l S IH F]; simpl; [constructor|].
  destruct (f a); [|exact IH].
  constructor; [exact IH|].
  rewrite Forall_forall in *. intros x Hx. apply filter_In in Hx. now apply F.
Qed.

Lemma sorted_strict (l : list Key) :
  StronglySorted key_leP l -> NoDup l -> StronglySorted key_ltP l.
Proof.
  induction 1 as [|a l S IH F]; intro N; [constructor|].
  apply NoDup_cons_iff in N. destruct N as [Na N].
  constructor; [now apply IH|].
  rewrite Forall_forall in *. intros x Hx.
  apply key_le_neq_lt; [now apply F | congruence].
Qed.

Lemma tag_columns_spec (keys l0 : list Key) :
  NoDup keys ->
  sorted (set_diff keys excluded_keys) = inr l0 ->
  StronglySorted key_ltP (tag_columns l0) /\
  forall k, In k (tag_columns l0) <->
            In k keys /\ ~ In k excluded_keys
            /\ k <> KStr "GPSLatitude" /\ k <> KStr "GPSLongitude".
Proof.
  intros N S.
  assert (P : Permutation l0 (set_diff keys excluded_keys)) by now apply sorted_perm.
  split.
  - unfold tag_columns, without. do 2 apply StronglySorted_filter.
    apply sorted_strict; [now apply sorted_sorted in S|].
    eapply Permutation_NoDup; [apply Permutation_sym; exact P|].
    now apply set_diff_NoDup.
  - intro k. unfold tag_columns. rewrite !without_In.
    assert (M : In k l0 <-> In k (set_diff keys excluded_keys)).
    { split; apply Permutation_in; [exact P | now apply Permutation_sym]. }
    rewrite M, set_diff_In. tauto.
Qed.

Lemma key_val_inj (a b : Key) : key_val a = key_val b -> a = b.
Proof. destruct a, b; simpl; congruence. Qed.

Lemma In_key_val (k : Key) (l : list Key) : In (key_val k) (map key_val l) <-> In k l.
Proof.
  rewrite in_map_iff. split.
  - intros [x [E H]]. apply key_val_inj in E. now subst.
  - intro H. now exists k.
Qed.

(** C1, as the specification states it, fails on a directory whose only
    image has GPS sub-tags 100 and 32, none of them in the table: the header
    is [Image Name, 32, 100], which is neither a list of tag names nor in
    lexicographic order ("100" sorts before "32"). *)
Lemma numeric_keys_not_lexicographic :
  csv (write_gps_to_csv example_runtime insertion_order pillow_tags
         unnamed_tags_only "photos" "out.csv")
  = Some [[VStr "Image Name"; VInt 32; VInt 100];
          [VStr "a.jpg"; VStr "y"; VStr "x"]] /\
  ~ (exists names, [VInt 32; VInt 100] = map VStr names) /\
  ~ StronglySorted (fun a b => String.ltb (key_text a) (key_text b) = true)
      [KInt 32; KInt 100].
Proof.
  split; [reflexivity|]. split.
  - intros [[|n names] H]; discriminate.
  - intro S. apply StronglySorted_inv in S. destruct S as [_ F].
    apply Forall_inv in F. vm_compute in F. discriminate.
Qed.

(** C1 (amended). Whenever the export writes a header, the header is
    [Image Name], then the observed keys other than GPSAltitudeRef,
    GPSVersionID, GPSLatitude and GPSLongitude, each once and in ascending
    order of Python's [<] (tag names in lexicographic order of their code
    points, numeric ids by value), then the four latitude columns exactly
    when GPSLatitude was observed, then the four longitude columns exactly
    when GPSLongitude was observed; neither GPSLatitude nor GPSLongitude is a
    header cell. *)
Theorem header_columns rt so tags w directory output_csv
  (header : list PyVal) (rows : list (list PyVal)) :
  csv (write_gps_to_csv rt so tags w directory output_csv) = Some (header :: rows) ->
  exists tag_cols lat_group long_group,
    header = VStr "Image Name" :: map key_val (tag_cols ++ lat_group ++ long_group) /\
    StronglySorted key_ltP tag_cols /\
    (forall a b, key_ltP (KStr a) (KStr b) <-> String.ltb a b = true) /\
    (forall a b, key_ltP (KInt a) (KInt b) <-> a < b) /\
    (forall k, In k tag_cols <->
               observed tags w directory k /\ ~ In k excluded_keys
               /\ k <> KStr "GPSLatitude" /\ k <> KStr "GPSLongitude") /\
    (observed tags w directory (KStr "GPSLatitude") /\ lat_group = lat_columns
     \/ ~ observed tags w directory (KStr "GPSLatitude") /\ lat_group = []) /\
    (observed tags w directory (KStr "GPSLongitude") /\ long_group = long_columns
     \/ ~ observed tags w directory (KStr "GPSLongitude") /\ long_group = []) /\
    ~ In (VStr "GPSLatitude") header /\ ~ In (VStr "GPSLongitude") header.
Proof.
  intro H. apply export_shape in H. destruct H as [l0 [S H]].
  injection H as -> _.
  destruct (tag_columns_spec _ l0 (discover_keys_NoDup tags w directory) S)
    as [A M].
  set (keys := all_gps_keys (discover tags w directory)) in *.
  assert (G : forall name (columns : list Key),
             observed tags w directory (KStr name)
             /\ group_if (key_in (KStr name) keys) columns = columns
             \/ ~ observed tags w directory (KStr name)
                /\ group_if (key_in (KStr name) keys) columns = []).
  { intros name columns. destruct (key_in (KStr name) keys) eqn:K.
    - left. split; [|reflexivity]. apply discover_keys_observed. now apply key_in_In.
    - right. split; [|reflexivity]. rewrite <- discover_keys_observed.
      now apply key_in_not_In. }
  exists (tag_columns l0), (group_if (key_in (KStr "GPSLatitude") keys) lat_columns),
    (group_if (key_in (KStr "GPSLongitude") keys) long_columns).
  split; [reflexivity|]. split; [exact A|].
  split.
  { intros a b. unfold key_ltP. simpl. unfold ret. split; congruence. }
  split.
  { intros a b. unfold key_ltP. simpl. unfold ret. rewrite <- Z.ltb_lt.
    split; congruence. }
  split.
  { intro k. rewrite M. unfold keys. now rewrite discover_keys_observed. }
  split; [apply G|]. split; [apply G|].
  assert (X : forall name,
             (name = "GPSLatitude" \/ name = "GPSLongitude") ->
             ~ In (VStr name)
                 (VStr "Image Name"
                  :: map key_val
                       (tag_columns l0
                        ++ group_if (key_in (KStr "GPSLatitude") keys) lat_columns
                        ++ group_if (key_in (KStr "GPSLongitude") keys) long_columns))).
  { intros name Hn [E|I].
    - destruct Hn; subst; discriminate.
    - change (VStr name) with (key_val (KStr name)) in I.
      apply In_key_val in I. rewrite !in_app_iff in I.
      destruct I as [I|[I|I]].
      + apply M in I. destruct I as (_ & _ & N1 & N2).
        destruct Hn; subst; congruence.
      + destruct (key_in (KStr "GPSLatitude") keys); simpl in I;
          destruct Hn; subst; intuition discriminate.
      + destruct (key_in (KStr "GPSLongitude") keys); simpl in I;
          destruct Hn; subst; intuition discriminate. }
  split; apply X; auto.
Qed.

Lemma header_columns_witness :
  exists tag_cols,
    [VStr "Image Name"; VStr "GPSAltitude"; VStr "GPSLatitudeRef";
     VStr "GPSLongitudeRef"; VStr "GPSLatitudeDegree"; VStr "GPSLatitudeMinutes";
     VStr "GPSLatitudeSeconds"; VStr "GPSLatitudeDecimal"; VStr "GPSLongDegree";
     VStr "GPSLongMinutes"; VStr "GPSLongSeconds"; VStr "GPSLongitudeDecimal"]
    = VStr "Image Name" :: map key_val (tag_cols ++ lat_columns ++ long_columns) /\
    StronglySorted key_ltP tag_cols.
Proof.
  destruct (header_columns example_runtime insertion_order pillow_tags photos
              "photos" "out.csv" _ _ eq_refl)
    as (tag_cols & lat_group & long_group & H & S & _ & _ & _ & L1 & L2 & _).
  exists tag_cols. split; [|exact S].
  destruct L1 as [[_ ->]|[N _]].
  - destruct L2 as [[_ ->]|[N _]]; [exact H|].
    exfalso. apply N. exists "a.jpg". repeat split; vm_compute; tauto.
  - exfalso. apply N. exists "a.jpg". repeat split; vm_compute; tauto.
Defined.

(** C6. GPSAltitudeRef and GPSVersionID are never cells of the header that
    the export writes, whatever the images contain. *)
Theorem excluded_keys_never_in_header rt so tags w directory output_csv
  (header : list PyVal) (rows : list (list PyVal)) :
  csv (write_gps_to_csv rt so tags w directory output_csv) = Some (header :: rows) ->
  ~ In (VStr "GPSAltitudeRef") header /\ ~ In (VStr "GPSVersionID") header.
Proof.
  intro H. apply export_shape in H. destruct H as [l0 [S H]].
  injection H as -> _.
  destruct (tag_columns_spec _ l0 (discover_keys_NoDup tags w directory) S)
    as [_ M].
  assert (X : forall name,
             In (KStr name) excluded_keys ->
             ~ In (VStr name)
                 (VStr "Image Name"
                  :: map key_val
                       (tag_columns l0
                        ++ group_if (key_in (KStr "GPSLatitude")
                                       (all_gps_keys (discover tags w directory)))
                             lat_columns
                        ++ group_if (key_in (KStr "GPSLongitude")
                                       (all_gps_keys (discover tags w directory)))
                             long_columns))).
  { intros name Hn [E|I].
    - injection E as <-. simpl in Hn. intuition discriminate.
    - change (VStr name) with (key_val (KStr name)) in I.
      apply In_key_val in I. rewrite !in_app_iff in I.
      destruct I as [I|[I|I]].
      + apply M in I. tauto.
      + destruct (key_in (KStr "GPSLatitude") _); simpl in I, Hn;
          intuition congruence.
      + destruct (key_in (KStr "GPSLongitude") _); simpl in I, Hn;
          intuition congruence. }
  split; apply X; simpl; auto.
Qed.

Lemma excluded_keys_never_in_header_witness :
  In (KStr "GPSAltitudeRef")
     (dict_keys (fst (get_gps_info pillow_tags (getexif photos) "photos/a.jpg"))) /\
  ~ In (VStr "GPSAltitudeRef")
      [VStr "Image Name"; VStr "GPSAltitude"; VStr "GPSLatitudeRef";
       VStr "GPSLongitudeRef"; VStr "GPSLatitudeDegree"; VStr "GPSLatitudeMinutes";
       VStr "GPSLatitudeSeconds"; VStr "GPSLatitudeDecimal"; VStr "GPSLongDegree";
       VStr "GPSLongMinutes"; VStr "GPSLongSeconds"; VStr "GPSLongitudeDecimal"].
Proof.
  split; [vm_compute; tauto|].
  apply (excluded_keys_never_in_header example_runtime insertion_order pillow_tags
           photos "photos" "out.csv" _ _ eq_refl).
Defined.

Lemma derive_columns_any_order (so1 so2 : SetOrder) (keys : list Key) :
  derive_columns so1 keys = derive_columns so2 keys.
Proof.
  unfold derive_columns.
  now rewrite (sorted_permutation_invariant _ _ (set_iter_perm so1 _)),
    (sorted_permutation_invariant _ _ (set_iter_perm so2 _)).
Qed.

(** C8. The rows that a run writes depend on the directory listing and on
    the decoded tags only, not on the order in which the interpreter
    iterates its sets; a second run on the unchanged directory, with the same
    output path, leaves the file with the bytes the first run left. *)
Theorem export_idempotent rt (so1 so2 : SetOrder) tags w directory output_csv
  (before : option string) :
  let first := write_gps_to_csv rt so1 tags w directory output_csv in
  let second := write_gps_to_csv rt so2 tags w directory output_csv in
  csv second = csv first /\
  file_after rt second (file_after rt first before) = file_after rt first before.
Proof.
  intros first second.
  assert (E : csv second = csv first).
  { unfold first, second. rewrite !csv_recorded. unfold csv_from.
    now rewrite (derive_columns_any_order so2 so1). }
  split; [exact E|].
  unfold file_after. rewrite E. now destruct (csv first).
Qed.

(** C10. A GPS sub-tag id that [GPSTAGS] does not name is stored under the
    id itself: the TagMap of the image, and the set of observed keys that
    the export sorts, then hold an integer key. *)
Theorem unknown_gps_tag_keeps_numeric_key tags w directory filename
  (before after : list (Z * PyVal)) (tag_id : Z) (items : list (Z * PyVal))
  (gps_tag_id : Z) (value : PyVal) :
  In filename (listdir w directory) ->
  endswith (str_lower filename) ".jpg" = true ->
  getexif w (path_join directory filename)
  = inr (Some (before ++ (tag_id, VDict items) :: after)) ->
  (forall t x, In (t, x) before -> is_GPSInfo tags t = false) ->
  is_GPSInfo tags tag_id = true ->
  In (gps_tag_id, value) items ->
  GPSTAGS tags gps_tag_id = None ->
  In (KInt gps_tag_id)
     (dict_keys (fst (get_gps_info tags (getexif w) (path_join directory filename))))
  /\ In (KInt gps_tag_id) (all_gps_keys (discover tags w directory)).
Proof.
  intros Hf Hj Hx Hb Hg Hi Hn.
  assert (K : In (KInt gps_tag_id)
                (dict_keys (fst (get_gps_info tags (getexif w)
                                   (path_join directory filename))))).
  { unfold get_gps_info, get_gps_info_body. rewrite Hx. cbn [bind].
    assert (S : scan_exif tags (before ++ (tag_id, VDict items) :: after) []
                = inr (copy_gps_items tags items []))
      by now rewrite scan_exif_at.
    destruct (before ++ (tag_id, VDict items) :: after) eqn:B;
      [now destruct before|].
    rewrite S. cbn [fst]. apply copy_gps_items_keys. right.
    exists gps_tag_id, value. split; [exact Hi|].
    unfold gps_tag_of. now rewrite Hn. }
  split; [exact K|].
  apply discover_keys_observed. exists filename. now repeat split.
Qed.

Lemma unknown_gps_tag_keeps_numeric_key_witness :
  In (KInt 99)
     (dict_keys (fst (get_gps_info pillow_tags (getexif with_unnamed_tag)
                        "photos/a.jpg")))
  /\ In (KInt 99) (all_gps_keys (discover pillow_tags with_unnamed_tag "photos")).
Proof.
  apply (unknown_gps_tag_keeps_numeric_key pillow_tags with_unnamed_tag "photos"
           "a.jpg" [] [] 34853
           [(2, VTuple [VInt 10; VInt 30; VInt 0]); (99, VStr "x")] 99 (VStr "x")).
  - simpl. tauto.
  - reflexivity.
  - reflexivity.
  - intros t x [].
  - reflexivity.
  - simpl. tauto.
  - reflexivity.
Defined.

(** ** Rows *)

Lemma recorded_names tags w directory (names : list string) :
  map fst (recorded tags w directory names)
  = filter (qualifies tags w directory) names.
Proof.
  unfold recorded. induction names as [|f names IH]; simpl; [reflexivity|].
  rewrite map_app, IH. unfold recorded_entry, qualifies.
  destruct (endswith (str_lower f) ".jpg"); simpl; [|reflexivity].
  now destruct (fst (get_gps_info tags (getexif w) (path_join directory f))).
Qed.

(** When the export writes the file, it writes one row for each qualifying
    entry of the listing, in the order of the listing, with the file name
    first. *)
Lemma rows_follow_listing rt so tags w directory output_csv
  (header : list PyVal) (rows : list (list PyVal)) :
  csv (write_gps_to_csv rt so tags w directory output_csv) = Some (header :: rows) ->
  map (hd VNone) rows
  = map VStr (filter (qualifies tags w directory) (listdir w directory)) /\
  List.length rows
  = List.length (filter (qualifies tags w directory) (listdir w directory)).
Proof.
  intro H. apply export_shape in H. destruct H as [l0 [_ H]].
  injection H as _ ->.
  rewrite <- recorded_names, !map_map, !length_map. split; [|reflexivity].
  apply map_ext. intro entry.
  destruct (build_row_shape rt
              (tag_columns l0
               ++ group_if (key_in (KStr "GPSLatitude")
                              (all_gps_keys (discover tags w directory))) lat_columns
               ++ group_if (key_in (KStr "GPSLongitude")
                              (all_gps_keys (discover tags w directory))) long_columns)
              entry) as [cells [E _]].
  now rewrite E.
Qed.

(** C4. The directory [with_unnamed_tag] has one [.jpg] entry with a
    non-empty TagMap, so the claim asks for one data row.  The TagMap holds
    the name GPSLatitude and the numeric key 99; [sorted] raises [TypeError]
    on this key set, the handler of [write_gps_to_csv] prints the error, and
    no header, no row and no file is written, whatever the platform. *)
Theorem mixed_keys_abort_export (rt : Runtime) (so : SetOrder) (output_csv : string) :
  let o := write_gps_to_csv rt so pillow_tags with_unnamed_tag "photos" output_csv in
  filter (qualifies pillow_tags with_unnamed_tag "photos")
         (listdir with_unnamed_tag "photos") = ["a.jpg"] /\
  dict_keys (fst (get_gps_info pillow_tags (getexif with_unnamed_tag) "photos/a.jpg"))
  = [KStr "GPSLatitude"; KInt 99] /\
  csv o = None /\
  console o = [ErrWritingCSV TypeError] /\
  forall before, file_after rt o before = before.
Proof.
  intro o. split; [reflexivity|]. split; [reflexivity|].
  assert (E : o = {| csv := None; console := [ErrWritingCSV TypeError] |}).
  { unfold o, write_gps_to_csv.
    rewrite (derive_columns_any_order so insertion_order). reflexivity. }
  rewrite E. repeat split.
Qed.

(** ** Refinement of the row loop *)

Lemma observed_keys_plain tags w directory (k : Key) :
  (forall id name, GPSTAGS tags id = Some name -> plain (KStr name)) ->
  In k (all_gps_keys (discover tags w directory)) -> plain k.
Proof.
  intros T H. apply discover_keys_observed in H.
  destruct H as (f & _ & _ & H). apply get_gps_info_keys in H.
  destruct H as [id ->]. unfold gps_tag_of.
  destruct (GPSTAGS tags id) as [name|] eqn:G; [now apply (T id)|].
  unfold plain, derived_columns, lat_columns, long_columns. simpl.
  intuition discriminate.
Qed.

(** C5. Provided [GPSTAGS] names no tag like one of the eight derived
    columns, every row that the export writes is the row of the memoized
    version: the latitude is split once, its degree, minutes and seconds
    cells are the components of that split and its decimal cell is
    [calculate_decimal] of those three components; likewise the longitude;
    every other cell is [gps_info.get(column, '')].  The loop of the source
    calls [parse_gps_coordinate] for each of the three component columns;
    the calls have the same argument and the same result. *)
Theorem rows_refine_memoized rt so tags w directory output_csv :
  (forall id name, GPSTAGS tags id = Some name -> plain (KStr name)) ->
  csv (write_gps_to_csv rt so tags w directory output_csv)
  = csv_memo rt so tags w directory.
Proof.
  intro T. unfold write_gps_to_csv, csv_memo.
  destruct (derive_columns so (all_gps_keys (discover tags w directory)))
    as [e|columns] eqn:D; simpl; [reflexivity|].
  do 2 f_equal. rewrite map_map. apply map_ext. intro entry.
  apply derive_columns_shape in D; [|apply discover_keys_NoDup].
  destruct D as [l0 [S ->]].
  apply build_row_refines. apply Forall_forall. intros k Hk.
  apply (observed_keys_plain tags w directory); [exact T|].
  destruct (tag_columns_spec _ l0 (discover_keys_NoDup tags w directory) S)
    as [_ M].
  now apply M in Hk.
Qed.

Lemma pillow_names_plain (id : Z) (name : string) :
  GPSTAGS pillow_tags id = Some name -> plain (KStr name).
Proof.
  simpl. destruct (id <? 0); [discriminate|]. intro H.
  apply nth_error_In in H.
  assert (F : forallb (fun n => negb (key_in (KStr n) derived_columns))
                pillow_gps_names = true) by reflexivity.
  rewrite forallb_forall in F. specialize (F name H).
  apply negb_true_iff in F. now apply key_in_not_In.
Qed.

Lemma rows_refine_memoized_witness :
  csv (write_gps_to_csv example_runtime insertion_order pillow_tags photos
         "photos" "out.csv")
  = Some [[VStr "Image Name"; VStr "GPSAltitude"; VStr "GPSLatitudeRef";
           VStr "GPSLongitudeRef"; VStr "GPSLatitudeDegree";
           VStr "GPSLatitudeMinutes"; VStr "GPSLatitudeSeconds";
           VStr "GPSLatitudeDecimal"; VStr "GPSLongDegree"; VStr "GPSLongMinutes";
           VStr "GPSLongSeconds"; VStr "GPSLongitudeDecimal"];
          [VStr "a.jpg"; VInt 5; VStr "N"; VStr "E"; VInt 10; VInt 30; VInt 0;
           VFloat 10.5%float; VInt 20; VInt 15; VInt 0; VFloat 20.25%float];
          [VStr "d.jpg"; VStr ""; VStr ""; VStr "W"; VStr ""; VStr ""; VStr "";
           VStr ""; VStr ""; VStr ""; VStr ""; VStr ""]].
Proof.
  rewrite (rows_refine_memoized example_runtime insertion_order pillow_tags photos
             "photos" "out.csv" pillow_names_plain).
  reflexivity.
Defined.

(** The rows of the example directory for another iteration order of the
    key set. *)
Example photos_any_order :
  csv (write_gps_to_csv example_runtime reverse_order pillow_tags photos
         "photos" "out.csv")
  = csv (write_gps_to_csv example_runtime insertion_order pillow_tags photos
           "photos" "out.csv").
Proof. reflexivity. Qed.

(** * Further properties of the four functions *)

(** ** get_gps_info *)

Lemma scan_exif_no_gps (tags : ExifTags) (exif_items : list (Z * PyVal))
  (gps_info : TagMap) :
  (forall t v, In (t, v) exif_items -> is_GPSInfo tags t = false) ->
  scan_exif tags exif_items gps_info = inr gps_info.
Proof.
  induction exif_items as [|[t v] exif_items IH]; simpl; intro H; [reflexivity|].
  rewrite (H t v) by now left. apply IH. intros t' v' I. apply (H t' v'). now right.
Qed.

(** X1. An image without EXIF data, or whose EXIF data has no tag named
    GPSInfo, has the empty TagMap, and nothing is printed for it. *)
Theorem get_gps_info_without_gps_block (tags : ExifTags) (getexif : Decoder)
  (path : string) :
  (getexif path = inr None \/
   exists exif_items,
     getexif path = inr (Some exif_items) /\
     forall t v, In (t, v) exif_items -> is_GPSInfo tags t = false) ->
  get_gps_info tags getexif path = ([], []).
Proof.
  unfold get_gps_info, get_gps_info_body.
  intros [H|[exif_items [H N]]]; rewrite H; cbn [bind]; [reflexivity|].
  destruct exif_items as [|it exif_items]; [reflexivity|].
  now rewrite scan_exif_no_gps.
Qed.

Lemma get_gps_info_without_gps_block_witness :
  get_gps_info pillow_tags (getexif photos) "photos/b.JPG" = ([], []) /\
  get_gps_info pillow_tags
    (fun _ => inr (Some [(271, VStr "Canon"); (272, VStr "EOS")])) "x.jpg"
  = ([], []).
Proof.
  split.
  - apply get_gps_info_without_gps_block. left. reflexivity.
  - apply get_gps_info_without_gps_block. right.
    exists [(271, VStr "Canon"); (272, VStr "EOS")]. split; [reflexivity|].
    intros t v [H|[H|[]]]; injection H as <- _; reflexivity.
Defined.

(** X2. Only the first top-level tag named GPSInfo is read.  When its value
    is a dictionary, the TagMap is built from that dictionary alone; when it
    is anything else, calling [items] on it fails, the TagMap is empty and
    the failure is printed.  The tags that follow it make no difference. *)
Theorem get_gps_info_first_gps_block (tags : ExifTags) (getexif : Decoder)
  (path : string) (before after : list (Z * PyVal)) (tag_id : Z) (value : PyVal) :
  getexif path = inr (Some (before ++ (tag_id, value) :: after)) ->
  (forall t v, In (t, v) before -> is_GPSInfo tags t = false) ->
  is_GPSInfo tags tag_id = true ->
  get_gps_info tags getexif path
  = match value with
    | VDict items => (copy_gps_items tags items [], [])
    | _ => ([], [ErrReadingGPSInfo path AttributeError])
    end.
Proof.
  intros H B G. unfold get_gps_info, get_gps_info_body. rewrite H. cbn [bind].
  pose proof (scan_exif_at tags before after tag_id value [] B G) as S.
  destruct (before ++ (tag_id, value) :: after) eqn:E; [now destruct before|].
  rewrite S. now destruct value.
Qed.

Lemma get_gps_info_first_gps_block_witness :
  get_gps_info pillow_tags
    (fun _ => inr (Some [(271, VStr "Canon"); (34853, VStr "not a block");
                         (34853, VDict [(1, VStr "N")])])) "x.jpg"
  = ([], [ErrReadingGPSInfo "x.jpg" AttributeError]) /\
  get_gps_info pillow_tags
    (fun _ => inr (Some [(34853, VDict [(1, VStr "N")]);
                         (34853, VDict [(3, VStr "E")])])) "x.jpg"
  = ([(KStr "GPSLatitudeRef", VStr "N")], []).
Proof.
  split.
  - apply (get_gps_info_first_gps_block pillow_tags _ "x.jpg"
             [(271, VStr "Canon")] [(34853, VDict [(1, VStr "N")])]
             34853 (VStr "not a block")); [reflexivity | | reflexivity].
    intros t v [H|[]]; injection H as <- _; reflexivity.
  - apply (get_gps_info_first_gps_block pillow_tags _ "x.jpg"
             [] [(34853, VDict [(3, VStr "E")])]
             34853 (VDict [(1, VStr "N")])); [reflexivity | | reflexivity].
    intros t v [].
Defined.

Lemma dict_get_set (d : TagMap) (k x : Key) (v : PyVal) :
  dict_get (dict_set d k v) x = if key_eqb k x then Some v else dict_get d x.
Proof.
  induction d as [|[k' v'] d IH]; simpl.
  - reflexivity.
  - destruct (key_eqb k' k) eqn:E; simpl.
    + apply key_eqb_eq in E. subst. now destruct (key_eqb k x).
    + rewrite IH. destruct (key_eqb k' x) eqn:E'; [|reflexivity].
      apply key_eqb_eq in E'. subst. now rewrite key_eqb_sym, E.
Qed.

Lemma find_last {A : Type} (f : A -> bool) (l : list A) (a : A) :
  find f (l ++ [a])
  = match find f l with
    | Some x => Some x
    | None => if f a then Some a else None
    end.
Proof.
  induction l as [|y l IH]; simpl; [reflexivity|]. now destruct (f y).
Qed.

Lemma copy_gps_items_get (tags : ExifTags) (items : list (Z * PyVal))
  (d : TagMap) (x : Key) :
  dict_get (copy_gps_items tags items d) x
  = match find (fun it => key_eqb (gps_tag_of tags (fst it)) x) (rev items) with
    | Some it => Some (snd it)
    | None => dict_get d x
    end.
Proof.
  unfold copy_gps_items. revert d.
  induction items as [|[id v] items IH]; intro d; simpl; [reflexivity|].
  rewrite IH, find_last, dict_get_set. simpl.
  destruct (find _ (rev items)); [reflexivity|].
  now destruct (key_eqb (gps_tag_of tags id) x).
Qed.

(** X3. Looking a key up in the extracted TagMap gives the value of the
    last sub-tag of the GPS block that is stored under that key, and nothing
    when no sub-tag is stored under it. *)
Theorem get_gps_info_lookup (tags : ExifTags) (getexif : Decoder)
  (path : string) (before after : list (Z * PyVal)) (tag_id : Z)
  (items : list (Z * PyVal)) (key : Key) :
  getexif path = inr (Some (before ++ (tag_id, VDict items) :: after)) ->
  (forall t v, In (t, v) before -> is_GPSInfo tags t = false) ->
  is_GPSInfo tags tag_id = true ->
  dict_get (fst (get_gps_info tags getexif path)) key
  = option_map snd
      (find (fun it => key_eqb (gps_tag_of tags (fst it)) key) (rev items)).
Proof.
  intros H B G.
  rewrite (get_gps_info_first_gps_block tags getexif path before after tag_id
             (VDict items) H B G).
  cbn [fst]. rewrite copy_gps_items_get.
  now destruct (find _ (rev items)).
Qed.

Lemma get_gps_info_lookup_witness :
  dict_get (fst (get_gps_info pillow_tags (getexif photos) "photos/a.jpg"))
           (KStr "GPSAltitude") = Some (VInt 5) /\
  dict_get (fst (get_gps_info pillow_tags (getexif photos) "photos/a.jpg"))
           (KStr "GPSSpeed") = None.
Proof.
  split.
  - apply (get_gps_info_lookup pillow_tags (getexif photos) "photos/a.jpg"
             [(271, VStr "Canon")] [] 34853
             [(0, VBytes "2200"); (1, VStr "N");
              (2, VTuple [VInt 10; VInt 30; VInt 0]); (3, VStr "E");
              (4, VTuple [VInt 20; VInt 15; VInt 0]); (5, VBytes "0");
              (6, VInt 5)] (KStr "GPSAltitude")); [reflexivity | | reflexivity].
    intros t v [H|[]]; injection H as <- _; reflexivity.
  - apply (get_gps_info_lookup pillow_tags (getexif photos) "photos/a.jpg"
             [(271, VStr "Canon")] [] 34853
             [(0, VBytes "2200"); (1, VStr "N");
              (2, VTuple [VInt 10; VInt 30; VInt 0]); (3, VStr "E");
              (4, VTuple [VInt 20; VInt 15; VInt 0]); (5, VBytes "0");
              (6, VInt 5)] (KStr "GPSSpeed")); [reflexivity | | reflexivity].
    intros t v [H|[]]; injection H as <- _; reflexivity.
Defined.

Lemma dict_set_keys_order (d : TagMap) (k : Key) (v : PyVal) :
  dict_keys (dict_set d k v) = set_add (dict_keys d) k.
Proof.
  unfold set_add, key_in, dict_keys.
  induction d as [|[k' v'] d IH]; simpl; [reflexivity|].
  rewrite (key_eqb_sym k k'). destruct (key_eqb k' k); simpl; [reflexivity|].
  rewrite IH. now destruct (existsb (key_eqb k) (map fst d)).
Qed.

Lemma copy_gps_items_keys_order (tags : ExifTags) (items : list (Z * PyVal))
  (d : TagMap) :
  dict_keys (copy_gps_items tags items d)
  = set_update (dict_keys d) (map (fun it => gps_tag_of tags (fst it)) items).
Proof.
  unfold copy_gps_items, set_update. revert d.
  induction items as [|[id v] items IH]; intro d; simpl; [reflexivity|].
  now rewrite IH, dict_set_keys_order.
Qed.

(** X4. The keys of an extracted TagMap are pairwise distinct, and each of
    them is [GPSTAGS.get(id, id)] for some sub-tag id: the name that
    [GPSTAGS] gives to the id, or the id itself. *)
Theorem tagmap_keys_distinct (tags : ExifTags) (getexif : Decoder) (path : string) :
  NoDup (dict_keys (fst (get_gps_info tags getexif path))) /\
  forall k, In k (dict_keys (fst (get_gps_info tags getexif path))) ->
            exists id, k = gps_tag_of tags id.
Proof.
  split.
  - unfold get_gps_info.
    destruct (get_gps_info_body tags getexif path) as [e|gps_info] eqn:E;
      cbn [fst]; [constructor|].
    unfold get_gps_info_body in E.
    destruct (getexif path) as [e|[exif_items|]]; cbn [bind] in E;
      try discriminate; [|injection E as <-; constructor].
    assert (S : scan_exif tags exif_items [] = inr gps_info)
      by (destruct exif_items; [injection E as <-; reflexivity | exact E]).
    clear E. induction exif_items as [|[t v] exif_items IH]; simpl in S.
    + injection S as <-. constructor.
    + destruct (is_GPSInfo tags t); [|now apply IH].
      destruct (py_items v) as [e|items]; simpl in S; [discriminate|].
      injection S as <-. rewrite copy_gps_items_keys_order.
      apply set_update_NoDup. constructor.
  - intros k. apply get_gps_info_keys.
Qed.

(** ** write_gps_to_csv: when the file is written *)


Lemma derive_columns_defined (so : SetOrder) (keys l0 : list Key) :
  NoDup keys ->
  sorted (set_diff keys excluded_keys) = inr l0 ->
  exists columns, derive_columns so keys = inr columns.
Proof.
  intros N S. unfold derive_columns.
  rewrite (sorted_permutation_invariant _ _ (set_iter_perm so _)), S. cbn [bind].
  assert (N0 : NoDup l0).
  { eapply Permutation_NoDup;
      [apply Permutation_sym, sorted_perm; exact S | now apply set_diff_NoDup]. }
  pose proof (expand_app (KStr "GPSLatitude") lat_columns l0 [] N0 eq_refl) as X1.
  rewrite app_nil_r in X1. simpl in X1. rewrite X1. cbn [bind].
  assert (N1 : NoDup (without (KStr "GPSLatitude") l0)) by now apply NoDup_filter.
  assert (L : key_in (KStr "GPSLongitude")
                (if key_in (KStr "GPSLatitude") l0 then lat_columns else []) = false)
    by now destruct (key_in (KStr "GPSLatitude") l0).
  rewrite (expand_app (KStr "GPSLongitude") long_columns _ _ N1 L). eauto.
Qed.

Lemma derive_columns_fails (so : SetOrder) (keys : list Key) (e : exn) :
  NoDup keys ->
  derive_columns so keys = inl e ->
  e = TypeError /\ sorted (set_diff keys excluded_keys) = inl TypeError.
Proof.
  intros N D.
  destruct (sorted (set_diff keys excluded_keys)) as [e'|l0] eqn:S.
  - pose proof (sorted_error _ _ S) as ->. split; [|reflexivity].
    unfold derive_columns in D.
    rewrite (sorted_permutation_invariant _ _ (set_iter_perm so _)), S in D.
    cbn [bind] in D. congruence.
  - destruct (derive_columns_defined so keys l0 N S) as [columns C]. congruence.
Qed.





(** ** write_gps_to_csv: the rows *)

(** X7. Every row that the export writes has as many cells as the header:
    the file name and one cell for each column. *)
Theorem rows_as_wide_as_header rt so tags w directory output_csv
  (header : list PyVal) (rows : list (list PyVal)) :
  csv (write_gps_to_csv rt so tags w directory output_csv) = Some (header :: rows) ->
  Forall (fun r => List.length r = List.length header) rows.
Proof.
  intro H. apply export_shape in H. destruct H as [l0 [_ H]].
  injection H as -> ->.
  apply Forall_forall. intros r Hr. apply in_map_iff in Hr.
  destruct Hr as [entry [<- _]].
  match goal with
  | |- context [build_row rt ?c entry] =>
      destruct (build_row_shape rt c entry) as [cells [E L]]
  end.
  rewrite E. simpl. now rewrite length_map, L.
Qed.

Lemma rows_as_wide_as_header_witness :
  Forall (fun r => List.length r = 12%nat)
    [[VStr "a.jpg"; VInt 5; VStr "N"; VStr "E"; VInt 10; VInt 30; VInt 0;
      VFloat 10.5%float; VInt 20; VInt 15; VInt 0; VFloat 20.25%float];
     [VStr "d.jpg"; VStr ""; VStr ""; VStr "W"; VStr ""; VStr ""; VStr "";
      VStr ""; VStr ""; VStr ""; VStr ""; VStr ""]].
Proof.
  exact (rows_as_wide_as_header example_runtime insertion_order pillow_tags photos
           "photos" "out.csv" _ _ eq_refl).
Defined.

(** X8 is [rows_follow_listing] above: when the export writes the file, the
    rows are those of the qualifying entries, in the order of the listing. *)
Lemma rows_follow_listing_witness :
  map (hd VNone)
    [[VStr "a.jpg"; VInt 5; VStr "N"; VStr "E"; VInt 10; VInt 30; VInt 0;
      VFloat 10.5%float; VInt 20; VInt 15; VInt 0; VFloat 20.25%float];
     [VStr "d.jpg"; VStr ""; VStr ""; VStr "W"; VStr ""; VStr ""; VStr "";
      VStr ""; VStr ""; VStr ""; VStr ""; VStr ""]]
  = [VStr "a.jpg"; VStr "d.jpg"].
Proof.
  exact (proj1 (rows_follow_listing example_runtime insertion_order
                  pillow_tags photos "photos" "out.csv" _ _ eq_refl)).
Defined.




Lemma fold_left_ext_in {A B : Type} (f g : A -> B -> A) (l : list B) (a : A) :
  (forall x b, In b l -> f x b = g x b) ->
  fold_left f l a = fold_left g l a.
Proof.
  revert a. induction l as [|b l IH]; intros a H; simpl; [reflexivity|].
  rewrite (H a b) by now left. apply IH. intros x b' I. apply H. now right.
Qed.

(** X10. The decoder is asked about the [.jpg] entries of the listing only:
    two directories with the same listing whose [.jpg] entries decode alike
    give the same file and the same console, whatever their other entries
    are. *)
Theorem only_jpg_entries_are_read rt so tags (w1 w2 : World) directory output_csv :
  listdir w1 directory = listdir w2 directory ->
  (forall filename,
     In filename (listdir w1 directory) ->
     endswith (str_lower filename) ".jpg" = true ->
     getexif w1 (path_join directory filename)
     = getexif w2 (path_join directory filename)) ->
  write_gps_to_csv rt so tags w1 directory output_csv
  = write_gps_to_csv rt so tags w2 directory output_csv.
Proof.
  intros L G.
  assert (D : discover tags w1 directory = discover tags w2 directory).
  { unfold discover. rewrite <- L. apply fold_left_ext_in.
    intros st f I. unfold discover_step.
    destruct (endswith (str_lower f) ".jpg") eqn:J; [|reflexivity].
    unfold get_gps_info, get_gps_info_body. now rewrite (G f I J). }
  unfold write_gps_to_csv. now rewrite D.
Qed.

Lemma only_jpg_entries_are_read_witness :
  write_gps_to_csv example_runtime insertion_order pillow_tags photos
    "photos" "out.csv"
  = write_gps_to_csv example_runtime insertion_order pillow_tags
      {| listdir := listdir photos;
         getexif := fun path =>
           if String.eqb path "photos/notes.txt"
           then inr (Some [(34853, VDict [(99, VStr "x")])])
           else getexif photos path |}
      "photos" "out.csv".
Proof.
  apply only_jpg_entries_are_read; [reflexivity|].
  intros f I J. simpl in I.
  destruct I as [<-|[<-|[<-|[<-|[<-|[]]]]]]; try reflexivity; discriminate.
Defined.

Lemma fold_plain_cell (rt : Runtime) (gps_info : TagMap) (columns : list Key) :
  forall (st : RowState) (i : nat) (key : Key),
    nth_error columns i = Some key -> plain key ->
    nth_error (row (fold_left (row_step rt gps_info) columns st))
              (List.length (row st) + i)
    = Some (dict_get_default gps_info key (VStr "")).
Proof.
  induction columns as [|k columns IH]; intros st i key N P.
  - destruct i; discriminate.
  - destruct i as [|i]; simpl in N |- *.
    + injection N as ->.
      destruct (fold_row_prefix rt gps_info columns (row_step rt gps_info st key))
        as [cells [E _]].
      rewrite E, row_step_plain by assumption. simpl.
      rewrite <- app_assoc, Nat.add_0_r, nth_error_app2 by lia.
      now rewrite Nat.sub_diag.
    + specialize (IH (row_step rt gps_info st k) i key N P).
      destruct (row_step_row rt gps_info st k) as [cell R].
      rewrite R, length_app in IH. simpl in IH.
      replace (List.length (row st) + S i)%nat
        with (List.length (row st) + 1 + i)%nat by lia.
      exact IH.
Qed.

(** X11. In the row of an image, the cell under a column that is not one of
    the eight derived columns is the value that the image's TagMap has for
    the column, and the empty string when the TagMap lacks it; the position
    of the column does not matter. *)
Theorem tag_cell_is_lookup (rt : Runtime) (columns : list Key) (filename : string)
  (gps_info : TagMap) (i : nat) (key : Key) :
  nth_error columns i = Some key ->
  plain key ->
  nth_error (row (build_row rt columns (filename, gps_info))) (S i)
  = Some (match dict_get gps_info key with
          | Some value => value
          | None => VStr ""
          end).
Proof.
  intros N P. unfold build_row.
  exact (fold_plain_cell rt gps_info columns (row_init filename) i key N P).
Qed.

Lemma tag_cell_is_lookup_witness :
  nth_error
    (row (build_row example_runtime
            [KStr "GPSAltitude"; KStr "GPSLatitudeRef"; KStr "GPSLongitudeRef"]
            ("d.jpg", [(KStr "GPSLongitudeRef", VStr "W")]))) 3
  = Some (VStr "W") /\
  nth_error
    (row (build_row example_runtime
            [KStr "GPSAltitude"; KStr "GPSLatitudeRef"; KStr "GPSLongitudeRef"]
            ("d.jpg", [(KStr "GPSLongitudeRef", VStr "W")]))) 1
  = Some (VStr "").
Proof.
  split.
  - refine (tag_cell_is_lookup example_runtime
              [KStr "GPSAltitude"; KStr "GPSLatitudeRef"; KStr "GPSLongitudeRef"]
              "d.jpg" [(KStr "GPSLongitudeRef", VStr "W")] 2
              (KStr "GPSLongitudeRef") eq_refl _).
    unfold plain. simpl. intuition discriminate.
  - refine (tag_cell_is_lookup example_runtime
              [KStr "GPSAltitude"; KStr "GPSLatitudeRef"; KStr "GPSLongitudeRef"]
              "d.jpg" [(KStr "GPSLongitudeRef", VStr "W")] 0
              (KStr "GPSAltitude") eq_refl _).
    unfold plain. simpl. intuition discriminate.
Defined.

(** ** write_gps_to_csv: the header and the console *)

Lemma strict_sorted_NoDup (l : list Key) : StronglySorted key_ltP l -> NoDup l.
Proof.
  induction 1 as [|a l S IH F]; constructor; [|exact IH].
  intro I. rewrite Forall_forall in F. apply (key_lt_irrefl a). now apply F.
Qed.

Lemma derived_columns_NoDup : NoDup derived_columns.
Proof.
  unfold derived_columns, lat_columns, long_columns. simpl.
  repeat (constructor; [simpl; intuition discriminate|]). constructor.
Qed.

Lemma NoDup_key_val (l : list Key) : NoDup l -> NoDup (map key_val l).
Proof.
  induction 1 as [|k l N _ IH]; simpl; constructor; [|exact IH].
  now rewrite In_key_val.
Qed.

(** X14. Provided [GPSTAGS] names no tag like one of the eight derived
    columns, the column names that follow [Image Name] in a written header
    are pairwise distinct. *)
Theorem header_columns_distinct rt so tags w directory output_csv
  (header : list PyVal) (rows : list (list PyVal)) :
  (forall id name, GPSTAGS tags id = Some name -> plain (KStr name)) ->
  csv (write_gps_to_csv rt so tags w directory output_csv) = Some (header :: rows) ->
  NoDup (tl header).
Proof.
  intros T H. apply export_shape in H. destruct H as [l0 [S H]].
  injection H as -> _. cbn [tl].
  destruct (tag_columns_spec _ l0 (discover_keys_NoDup tags w directory) S)
    as [A M].
  apply NoDup_key_val.
  apply NoDup_app; [now apply strict_sorted_NoDup | |].
  - pose proof derived_columns_NoDup as D. unfold derived_columns in D.
    destruct (key_in (KStr "GPSLatitude") _), (key_in (KStr "GPSLongitude") _);
      simpl group_if; rewrite ?app_nil_r.
    + exact D.
    + now apply NoDup_app_remove_r in D.
    + now apply NoDup_app_remove_l in D.
    + constructor.
  - intros k Hk Hd. apply M in Hk. destruct Hk as [Hk _].
    apply (observed_keys_plain tags w directory k T Hk).
    unfold derived_columns. rewrite in_app_iff in *.
    destruct (key_in (KStr "GPSLatitude") _), (key_in (KStr "GPSLongitude") _);
      cbn [group_if In] in Hd; tauto.
Qed.

Lemma header_columns_distinct_witness :
  NoDup [VStr "GPSAltitude"; VStr "GPSLatitudeRef"; VStr "GPSLongitudeRef";
         VStr "GPSLatitudeDegree"; VStr "GPSLatitudeMinutes";
         VStr "GPSLatitudeSeconds"; VStr "GPSLatitudeDecimal"; VStr "GPSLongDegree";
         VStr "GPSLongMinutes"; VStr "GPSLongSeconds"; VStr "GPSLongitudeDecimal"].
Proof.
  exact (header_columns_distinct example_runtime insertion_order pillow_tags photos
           "photos" "out.csv" _ _ pillow_names_plain eq_refl).
Defined.







(** ** The test on the file name *)

Lemma str_lower_append (a b : string) :
  str_lower (String.append a b) = String.append (str_lower a) (str_lower b).
Proof. induction a as [|c a IH]; simpl; [reflexivity | now rewrite IH]. Qed.

Lemma str_lower_length (s : string) : String.length (str_lower s) = String.length s.
Proof. induction s as [|c s IH]; simpl; [reflexivity | now rewrite IH]. Qed.

Lemma string_length_append (a b : string) :
  String.length (String.append a b) = (String.length a + String.length b)%nat.
Proof. induction a as [|c a IH]; simpl; [reflexivity | now rewrite IH]. Qed.

Lemma substring_all (s : string) : String.substring 0 (String.length s) s = s.
Proof. induction s as [|c s IH]; simpl; [reflexivity | now rewrite IH]. Qed.

Lemma substring_suffix (a b : string) :
  String.substring (String.length a) (String.length b) (String.append a b) = b.
Proof. induction a as [|c a IH]; simpl; [apply substring_all | exact IH]. Qed.

Lemma substring_split (s : string) (k : nat) :
  (k <= String.length s)%nat ->
  s = String.append (String.substring 0 k s)
                    (String.substring k (String.length s - k) s)
  /\ String.length (String.substring 0 k s) = k.
Proof.
  revert k. induction s as [|c s IH]; intros [|k] H; simpl in *; try lia.
  - now split.
  - split; [now rewrite substring_all | reflexivity].
  - destruct (IH k) as [E L]; [lia|]. split; [now rewrite <- E | now rewrite L].
Qed.

Lemma endswith_append (stem suffix : string) :
  endswith (String.append stem suffix) suffix = true.
Proof.
  unfold endswith. rewrite string_length_append.
  replace (String.length stem + String.length suffix - String.length suffix)%nat
    with (String.length stem) by lia.
  rewrite substring_suffix, String.eqb_refl.
  apply andb_true_iff. split; [apply Nat.leb_le; lia | reflexivity].
Qed.

(** X13. A directory entry is taken for an image exactly when its name is
    some text followed by an extension that lower-cases to [.jpg]: [.jpg],
    [.JPG], [.Jpg] and so on, also when the name is the extension alone.
    A name in [.jpeg] is not. *)
Theorem jpg_test (name : string) :
  (endswith (str_lower name) ".jpg" = true <->
   exists stem ext, name = String.append stem ext /\ str_lower ext = ".jpg") /\
  endswith (str_lower "photo.jpeg") ".jpg" = false.
Proof.
  split; [|reflexivity]. split.
  - unfold endswith. intro H. apply andb_true_iff in H. destruct H as [L E].
    apply Nat.leb_le in L. apply String.eqb_eq in E.
    rewrite str_lower_length in L, E. simpl String.length in L, E.
    destruct (substring_split name (String.length name - 4)) as [S Ls]; [lia|].
    exists (String.substring 0 (String.length name - 4) name),
      (String.substring (String.length name - 4)
                        (String.length name - (String.length name - 4)) name).
    split; [exact S|].
    rewrite S, str_lower_append in E.
    set (stem := String.substring 0 (String.length name - 4) name) in *.
    set (ext := String.substring (String.length name - 4)
                  (String.length name - (String.length name - 4)) name) in *.
    assert (Le : String.length ext = 4%nat).
    { assert (T : String.length name = (String.length stem + String.length ext)%nat)
        by (rewrite S at 1; apply string_length_append).
      lia. }
    rewrite <- E.
    assert (T : String.length (String.append stem ext) = String.length name)
      by now rewrite <- S.
    rewrite T.
    replace (String.length name - 4)%nat with (String.length (str_lower stem))
      by (rewrite str_lower_length; exact Ls).
    replace 4%nat with (String.length (str_lower ext))
      by (rewrite str_lower_length; exact Le).
    now rewrite substring_suffix.
  - intros (stem & ext & -> & E). rewrite str_lower_append, E.
    apply endswith_append.
Qed.

(** ** The command-line block *)

Lemma lstrip_spaces (p s : string) :
  all_space p = true -> lstrip (String.append p s) = lstrip s.
Proof.
  induction p as [|c p IH]; simpl; intro H; [reflexivity|].
  apply andb_true_iff in H. destruct H as [Hc Hp]. rewrite Hc. now apply IH.
Qed.

Lemma rstrip_all_space (p : string) : all_space p = true -> rstrip p = EmptyString.
Proof.
  induction p as [|c p IH]; simpl; intro H; [reflexivity|].
  apply andb_true_iff in H. destruct H as [Hc Hp]. now rewrite IH, Hc.
Qed.

Lemma rstrip_spaces (s p : string) :
  all_space p = true -> rstrip (String.append s p) = rstrip s.
Proof.
  intro H. induction s as [|c s IH]; simpl.
  - now apply rstrip_all_space.
  - now rewrite IH.
Qed.

Lemma lstrip_all_space (p : string) : all_space p = true -> lstrip p = EmptyString.
Proof.
  induction p as [|c p IH]; simpl; intro H; [reflexivity|].
  apply andb_true_iff in H. destruct H as [Hc Hp]. now rewrite Hc, IH.
Qed.

Lemma strip_trailing_spaces (s p : string) :
  all_space p = true -> py_strip (String.append s p) = py_strip s.
Proof.
  intro H. unfold py_strip. induction s as [|c s IH]; simpl.
  - now rewrite lstrip_all_space.
  - destruct (is_space c); [exact IH|].
    change (String c (String.append s p)) with (String.append (String c s) p).
    now apply rstrip_spaces.
Qed.

Lemma strip_padding (p1 s p2 : string) :
  all_space p1 = true -> all_space p2 = true ->
  py_strip (String.append p1 (String.append s p2)) = py_strip s.
Proof.
  intros H1 H2. rewrite <- (strip_trailing_spaces s p2 H2).
  unfold py_strip. now rewrite lstrip_spaces.
Qed.

(** X15. White space typed before or after the directory name or the file
    name makes no difference to what the command-line block does. *)
Theorem main_ignores_padding (rt : Runtime) (so : SetOrder) (tags : ExifTags)
  (w : World) (isdir : string -> bool) (directory output_csv p1 p2 p3 p4 : string) :
  all_space p1 = true -> all_space p2 = true ->
  all_space p3 = true -> all_space p4 = true ->
  main rt so tags w isdir
       (String.append p1 (String.append directory p2))
       (String.append p3 (String.append output_csv p4))
  = main rt so tags w isdir directory output_csv.
Proof.
  intros H1 H2 H3 H4. unfold main.
  now rewrite !strip_padding by assumption.
Qed.

Lemma main_ignores_padding_witness :
  py_strip "  my photos
" = "my photos" /\
  main_csv (main example_runtime insertion_order pillow_tags photos
              (fun d => String.eqb d "photos") "  photos " "out.csv	")
  = csv (write_gps_to_csv example_runtime insertion_order pillow_tags photos
           "photos" "out.csv").
Proof.
  split; [reflexivity|].
  exact (f_equal main_csv
           (main_ignores_padding example_runtime insertion_order pillow_tags photos
              (fun d => String.eqb d "photos") "photos" "out.csv" "  " " " "" "	"
              eq_refl eq_refl eq_refl eq_refl)).
Defined.

(** ** The cells of the coordinate columns *)

Lemma row_step_cell (rt : Runtime) (gps_info : TagMap) (st : RowState) (key : Key) :
  is_decimal_column key = false ->
  row (row_step rt gps_info st key)
  = row st ++ [memo_cell rt gps_info (lat_of gps_info) (long_of gps_info) key].
Proof.
  unfold is_decimal_column. intro D. apply orb_false_iff in D. destruct D as [D1 D2].
  rewrite row_step_cases. unfold memo_cell.
  destruct (lat_of gps_info) as [[lat_d lat_m] lat_s].
  destruct (long_of gps_info) as [[long_d long_m] long_s].
  rewrite D1, D2.
  repeat match goal with
         | |- context [if ?b then _ else _] => destruct b
         end; reflexivity.
Qed.

(** X16. In the row of an image, every cell other than the two decimal
    cells is the cell of the memoized row, wherever its column stands: a
    component column shows the component of the split of the image's
    coordinate, any other column the image's value for it or ['']. *)
Theorem cell_is_position_independent (rt : Runtime) (columns : list Key)
  (filename : string) (gps_info : TagMap) (i : nat) (key : Key) :
  nth_error columns i = Some key ->
  is_decimal_column key = false ->
  nth_error (row (build_row rt columns (filename, gps_info))) (S i)
  = Some (memo_cell rt gps_info (lat_of gps_info) (long_of gps_info) key).
Proof.
  intros N D. unfold build_row. cbn [fst snd].
  change (S i) with (List.length (row (row_init filename)) + i)%nat.
  generalize (row_init filename) as st. revert i N.
  induction columns as [|k columns IH]; intros i N st.
  - destruct i; discriminate.
  - destruct i as [|i]; simpl in N |- *.
    + injection N as ->.
      destruct (fold_row_prefix rt gps_info columns (row_step rt gps_info st key))
        as [cells [E _]].
      rewrite E, row_step_cell by assumption.
      rewrite <- app_assoc, Nat.add_0_r, nth_error_app2 by lia.
      now rewrite Nat.sub_diag.
    + specialize (IH i N (row_step rt gps_info st k)).
      destruct (row_step_row rt gps_info st k) as [cell R].
      rewrite R, length_app in IH. simpl in IH.
      replace (List.length (row st) + S i)%nat
        with (List.length (row st) + 1 + i)%nat by lia.
      exact IH.
Qed.

Lemma cell_is_position_independent_witness :
  nth_error
    (row (build_row example_runtime
            [KStr "GPSLatitudeSeconds"; KStr "GPSLatitudeRef"; KStr "GPSLatitudeDegree"]
            ("a.jpg", [(KStr "GPSLatitude", VTuple [VInt 10; VInt 30; VInt 0])]))) 3
  = Some (VInt 10).
Proof.
  exact (cell_is_position_independent example_runtime
           [KStr "GPSLatitudeSeconds"; KStr "GPSLatitudeRef"; KStr "GPSLatitudeDegree"]
           "a.jpg" [(KStr "GPSLatitude", VTuple [VInt 10; VInt 30; VInt 0])]
           2 (KStr "GPSLatitudeDegree") eq_refl eq_refl).
Defined.

Lemma row_step_before_components (rt : Runtime) (gps_info : TagMap) (st : RowState)
  (key : Key) :
  ~ In key lat_components -> lat_unset st ->
  lat_unset (row_step rt gps_info st key)
  /\ (key = KStr "GPSLatitudeDecimal" ->
      row (row_step rt gps_info st key) = row st ++ [VStr ""]).
Proof.
  intros C [Hd [Hm Hs]]. rewrite row_step_cases.
  destruct (lat_of gps_info) as [[lat_d lat_m] lat_s].
  destruct (long_of gps_info) as [[long_d long_m] long_s].
  assert (E1 : key_eqb key (KStr "GPSLatitudeDegree") = false)
    by (apply key_eqb_neq; intros ->; apply C; simpl; auto).
  assert (E2 : key_eqb key (KStr "GPSLatitudeMinutes") = false)
    by (apply key_eqb_neq; intros ->; apply C; simpl; auto).
  assert (E3 : key_eqb key (KStr "GPSLatitudeSeconds") = false)
    by (apply key_eqb_neq; intros ->; apply C; simpl; auto).
  rewrite E1, E2, E3.
  destruct (key_eqb key (KStr "GPSLatitudeDecimal")) eqn:E4.
  { split; [now repeat split|]. intros _. simpl.
    now rewrite Hd, Hm, Hs, calculate_decimal_sentinel. }
  apply key_eqb_neq in E4.
  repeat match goal with
         | |- context [if ?b then _ else _] => destruct b
         end; (split; [now repeat split | intro; contradiction]).
Qed.

(** X17. The decimal cell is computed from the components that the loop
    has met so far in the row: when none of the three latitude component
    columns stands before the column GPSLatitudeDecimal, its cell is the
    empty string, whatever latitude the image has. *)
Theorem decimal_before_components_is_empty (rt : Runtime) (columns : list Key)
  (filename : string) (gps_info : TagMap) (i : nat) :
  nth_error columns i = Some (KStr "GPSLatitudeDecimal") ->
  (forall key, In key (firstn i columns) -> ~ In key lat_components) ->
  nth_error (row (build_row rt columns (filename, gps_info))) (S i)
  = Some (VStr "").
Proof.
  intros N B. unfold build_row. cbn [fst snd].
  change (S i) with (List.length (row (row_init filename)) + i)%nat.
  assert (U : lat_unset (row_init filename)) by now repeat split.
  revert U. generalize (row_init filename) as st. revert i N B.
  induction columns as [|k columns IH]; intros i N B st U.
  - destruct i; discriminate.
  - destruct i as [|i]; simpl in N |- *.
    + injection N as ->.
      destruct (row_step_before_components rt gps_info st
                  (KStr "GPSLatitudeDecimal")) as [_ C];
        [simpl; intuition discriminate | exact U |].
      destruct (fold_row_prefix rt gps_info columns
                  (row_step rt gps_info st (KStr "GPSLatitudeDecimal")))
        as [cells [E _]].
      rewrite E, C, <- app_assoc, Nat.add_0_r by reflexivity.
      rewrite nth_error_app2 by lia. now rewrite Nat.sub_diag.
    + destruct (row_step_before_components rt gps_info st k) as [U' _];
        [apply B; now left | exact U |].
      specialize (IH i N (fun key H => B key (or_intror H))
                    (row_step rt gps_info st k) U').
      destruct (row_step_row rt gps_info st k) as [cell R].
      rewrite R, length_app in IH. simpl in IH.
      replace (List.length (row st) + S i)%nat
        with (List.length (row st) + 1 + i)%nat by lia.
      exact IH.
Qed.

Lemma decimal_before_components_is_empty_witness :
  nth_error
    (row (build_row example_runtime
            [KStr "GPSLatitudeDecimal"; KStr "GPSLatitudeDegree";
             KStr "GPSLatitudeMinutes"; KStr "GPSLatitudeSeconds"]
            ("a.jpg", [(KStr "GPSLatitude", VTuple [VInt 10; VInt 30; VInt 0])]))) 1
  = Some (VStr "").
Proof.
  refine (decimal_before_components_is_empty example_runtime
            [KStr "GPSLatitudeDecimal"; KStr "GPSLatitudeDegree";
             KStr "GPSLatitudeMinutes"; KStr "GPSLatitudeSeconds"]
            "a.jpg" [(KStr "GPSLatitude", VTuple [VInt 10; VInt 30; VInt 0])]
            0 eq_refl _).
  intros key [].
Defined.

(** ** The order of the directory listing *)

Lemma derive_columns_value (so : SetOrder) (keys : list Key) :
  NoDup keys ->
  derive_columns so keys
  = match sorted (set_diff keys excluded_keys) with
    | inl _ => inl TypeError
    | inr l0 =>
        inr (tag_columns l0
             ++ group_if (key_in (KStr "GPSLatitude") keys) lat_columns
             ++ group_if (key_in (KStr "GPSLongitude") keys) long_columns)
    end.
Proof.
  intro N.
  destruct (sorted (set_diff keys excluded_keys)) as [e|l0] eqn:S.
  - destruct (derive_columns so keys) as [e'|columns] eqn:D.
    + apply derive_columns_fails in D; [|exact N]. now destruct D as [-> _].
    + apply derive_columns_shape in D; [|exact N]. destruct D as [l0 [S' _]].
      congruence.
  - destruct (derive_columns_defined so keys l0 N S) as [columns D].
    rewrite D. apply derive_columns_shape in D; [|exact N].
    destruct D as [l0' [S' ->]]. congruence.
Qed.

Lemma key_in_perm (k : Key) (l1 l2 : list Key) :
  Permutation l1 l2 -> key_in k l1 = key_in k l2.
Proof.
  intro P. destruct (key_in k l2) eqn:E.
  - apply key_in_In. apply key_in_In in E.
    eapply Permutation_in; [apply Permutation_sym; exact P | exact E].
  - apply key_in_not_In. apply key_in_not_In in E. intro H. apply E.
    eapply Permutation_in; eauto.
Qed.

Lemma derive_columns_perm (so1 so2 : SetOrder) (keys1 keys2 : list Key) :
  NoDup keys1 -> NoDup keys2 -> Permutation keys1 keys2 ->
  derive_columns so1 keys1 = derive_columns so2 keys2.
Proof.
  intros N1 N2 P. rewrite !derive_columns_value by assumption.
  assert (Q : Permutation (set_diff keys1 excluded_keys) (set_diff keys2 excluded_keys)).
  { apply NoDup_Permutation; try now apply set_diff_NoDup.
    intro k. rewrite !set_diff_In.
    split; intros [H X]; (split; [|exact X]).
    - eapply Permutation_in; eauto.
    - eapply Permutation_in; [apply Permutation_sym; exact P | exact H]. }
  rewrite (sorted_permutation_invariant _ _ Q).
  now rewrite (key_in_perm _ _ _ P), (key_in_perm (KStr "GPSLongitude") _ _ P).
Qed.

(** X18. The order in which the directory is listed decides the order of
    the rows and nothing else: for a listing with the same entries in
    another order the export writes the file in the same cases, with the
    same header, and with the same rows in the order of that listing. *)
Theorem listing_order_permutes_rows rt (so1 so2 : SetOrder) tags w directory
  output_csv (names : list string) :
  Permutation (listdir w directory) names ->
  let first := write_gps_to_csv rt so1 tags w directory output_csv in
  let second :=
    write_gps_to_csv rt so2 tags (with_listing w names) directory output_csv in
  (csv first = None <-> csv second = None) /\
  forall header1 rows1 header2 rows2,
    csv first = Some (header1 :: rows1) ->
    csv second = Some (header2 :: rows2) ->
    header1 = header2 /\ Permutation rows1 rows2.
Proof.
  intros P first second. unfold first, second. rewrite !csv_recorded.
  change (recorded tags (with_listing w names) directory
            (listdir (with_listing w names) directory))
    with (recorded tags w directory names).
  assert (R : Permutation (recorded tags w directory (listdir w directory))
                          (recorded tags w directory names))
    by (unfold recorded; now apply Permutation_flat_map).
  set (data1 := recorded tags w directory (listdir w directory)) in *.
  set (data2 := recorded tags w directory names) in *.
  assert (K : derive_columns so1 (set_update [] (keys_of data1))
              = derive_columns so2 (set_update [] (keys_of data2))).
  { apply derive_columns_perm; try (apply set_update_NoDup; constructor).
    apply NoDup_Permutation; try (apply set_update_NoDup; constructor).
    intro k. rewrite !set_update_In.
    assert (Q : Permutation (keys_of data1) (keys_of data2))
      by (unfold keys_of; now apply Permutation_flat_map).
    split; intros [[]|H]; right.
    - eapply Permutation_in; eauto.
    - eapply Permutation_in; [apply Permutation_sym; exact Q | exact H]. }
  unfold csv_from. rewrite K.
  destruct (derive_columns so2 (set_update [] (keys_of data2))) as [e|columns].
  - split; [tauto | discriminate].
  - split; [split; discriminate|].
    intros header1 rows1 header2 rows2 H1 H2.
    injection H1 as <- <-. injection H2 as <- <-.
    split; [reflexivity | now apply Permutation_map].
Qed.

Lemma listing_order_permutes_rows_witness :
  csv (write_gps_to_csv example_runtime insertion_order pillow_tags
         (with_listing photos ["d.jpg"; "c.jpg"; "notes.txt"; "b.JPG"; "a.jpg"])
         "photos" "out.csv")
  = Some [[VStr "Image Name"; VStr "GPSAltitude"; VStr "GPSLatitudeRef";
           VStr "GPSLongitudeRef"; VStr "GPSLatitudeDegree";
           VStr "GPSLatitudeMinutes"; VStr "GPSLatitudeSeconds";
           VStr "GPSLatitudeDecimal"; VStr "GPSLongDegree"; VStr "GPSLongMinutes";
           VStr "GPSLongSeconds"; VStr "GPSLongitudeDecimal"];
          [VStr "d.jpg"; VStr ""; VStr ""; VStr "W"; VStr ""; VStr ""; VStr "";
           VStr ""; VStr ""; VStr ""; VStr ""; VStr ""];
          [VStr "a.jpg"; VInt 5; VStr "N"; VStr "E"; VInt 10; VInt 30; VInt 0;
           VFloat 10.5%float; VInt 20; VInt 15; VInt 0; VFloat 20.25%float]] /\
  Permutation
    [[VStr "a.jpg"; VInt 5; VStr "N"; VStr "E"; VInt 10; VInt 30; VInt 0;
      VFloat 10.5%float; VInt 20; VInt 15; VInt 0; VFloat 20.25%float];
     [VStr "d.jpg"; VStr ""; VStr ""; VStr "W"; VStr ""; VStr ""; VStr "";
      VStr ""; VStr ""; VStr ""; VStr ""; VStr ""]]
    [[VStr "d.jpg"; VStr ""; VStr ""; VStr "W"; VStr ""; VStr ""; VStr "";
      VStr ""; VStr ""; VStr ""; VStr ""; VStr ""];
     [VStr "a.jpg"; VInt 5; VStr "N"; VStr "E"; VInt 10; VInt 30; VInt 0;
      VFloat 10.5%float; VInt 20; VInt 15; VInt 0; VFloat 20.25%float]].
Proof.
  split; [reflexivity|].
  assert (P : Permutation (listdir photos "photos")
                ["d.jpg"; "c.jpg"; "notes.txt"; "b.JPG"; "a.jpg"]).
  { change (Permutation (rev ["d.jpg"; "c.jpg"; "notes.txt"; "b.JPG"; "a.jpg"])
                        ["d.jpg"; "c.jpg"; "notes.txt"; "b.JPG"; "a.jpg"]).
    apply Permutation_sym, Permutation_rev. }
  exact (proj2 (proj2 (listing_order_permutes_rows example_runtime insertion_order
                         insertion_order pillow_tags photos "photos" "out.csv"
                         ["d.jpg"; "c.jpg"; "notes.txt"; "b.JPG"; "a.jpg"] P)
                  _ _ _ _ eq_refl eq_refl)).
Defined.
